(** * SafeRove tourist heat map: the mock synthesizer and the map component

    A shallow embedding of [src/components/TouristHeatMap.tsx] and the
    properties of its data synthesizer, its fetch-with-fallback routine,
    its banding functions and its click handler.

    Modelling conventions.
    - The component is embedded twice.  In the first embedding a
      JavaScript [number] is a real number: it serves the properties of
      control flow, of the tables and of the ranges of the synthesized
      values, which do not depend on rounding.  The second embedding
      (module [IEEE]) computes in binary64 doubles, operation for
      operation, and serves the properties that do: the exact totals,
      the distances of the click handler and the comparisons of the
      banding functions, NaN included.
    - [Math.random()] and [new Date()] read the environment.  The
      environment is a [World]: the stream of values [Math.random()] is
      going to return and the stream of clock readings.  Each call
      consumes the head of its stream.
    - Abrupt completions ([throw], [return]) are explicit: a computation
      yields a [completion] together with the store it leaves behind.
    - Property lookup on an object literal consults the literal's own
      properties and then [Object.prototype], as the language does. *)

From Stdlib Require Import Reals Lra Lia ZArith QArith Qabs List String Ascii Bool.
From Stdlib Require Import DecimalString DecimalNat.
From Stdlib Require Floats Uint63.
Import ListNotations.

Open Scope string_scope.
Open Scope R_scope.

(* ------------------------------------------------------------------ *)
(** ** Numbers *)

Definition number := R.

(** [Math.floor]: the greatest integer below the argument, as a number. *)
Definition Math_floor (x : number) : number := IZR (Int_part x).

(** [Math.pow(x, 2)], the only exponent the component uses. *)
Definition Math_pow2 (x : number) : number := x ^ 2.

Definition Math_sqrt (x : number) : number := sqrt x.

(** Comparisons as JavaScript evaluates them, to a boolean. *)
Definition js_ge (x y : number) : bool := if Rge_dec x y then true else false.
Definition js_lt (x y : number) : bool := if Rlt_dec x y then true else false.

(** Template-literal rendering of an array index. *)
Definition string_of_index (n : nat) : string :=
  NilEmpty.string_of_uint (Nat.to_uint n).

(* ------------------------------------------------------------------ *)
(** ** Completions and the computation monad *)

Inductive exn : Type :=
| TypeError (msg : string)
| NetworkError (msg : string)
| SyntaxError (msg : string).

(** How a statement list finishes: normally with a value, by [return;]
    or by a thrown exception. *)
Inductive completion (A : Type) : Type :=
| Normal (a : A)
| Return
| Throw (e : exn).

Arguments Normal {A} a.
Arguments Return {A}.
Arguments Throw {A} e.

Definition JS (St A : Type) : Type := St -> completion A * St.

Definition ret {St A} (a : A) : JS St A := fun s => (Normal a, s).

Definition bind {St A B} (m : JS St A) (k : A -> JS St B) : JS St B :=
  fun s =>
    match m s with
    | (Normal a, s') => k a s'
    | (Return, s') => (Return, s')
    | (Throw e, s') => (Throw e, s')
    end.

Definition throw {St A} (e : exn) : JS St A := fun s => (Throw e, s).

Definition return_ {St A} : JS St A := fun s => (Return, s).

Notation "x <- m ;; k" := (bind m (fun x => k))
  (at level 61, m at next level, right associativity).
Notation "m ;;; k" := (bind m (fun _ => k))
  (at level 61, right associativity).

(** [try { body } catch (e) { handler e }]. *)
Definition try_catch {St A} (body : JS St A) (handler : exn -> JS St A) : JS St A :=
  fun s =>
    match body s with
    | (Throw e, s') => handler e s'
    | r => r
    end.

(** [try { body } finally { fin }]: [fin] always runs; when it completes
    normally the completion of [body] stands. *)
Definition try_finally {St A} (body : JS St A) (fin : JS St unit) : JS St A :=
  fun s =>
    match body s with
    | (c, s') =>
        match fin s' with
        | (Normal _, s'') => (c, s'')
        | (Return, s'') => (Return, s'')
        | (Throw e, s'') => (Throw e, s'')
        end
    end.

(** The body of a function whose result is not used: [return;] and
    falling off the end both complete the call normally; a [throw]
    reaches the caller (for an [async] function, as a rejection). *)
Definition call {St} (body : JS St unit) : JS St unit :=
  fun s =>
    match body s with
    | (Return, s') => (Normal tt, s')
    | r => r
    end.

(* ------------------------------------------------------------------ *)
(** ** The environment *)

Record World : Type := mkWorld {
  random : nat -> number;   (* upcoming results of Math.random() *)
  clock : nat -> string     (* upcoming results of new Date().toISOString() *)
}.

(** The contract of [Math.random()]: every draw lies in [0, 1). *)
Definition unit_draws (w : World) : Prop :=
  forall n, 0 <= random w n < 1.

Definition Math_random : JS World number :=
  fun w => (Normal (random w 0%nat),
            {| random := fun n => random w (S n); clock := clock w |}).

Definition Date_toISOString : JS World string :=
  fun w => (Normal (clock w 0%nat),
            {| random := random w; clock := fun n => clock w (S n) |}).

(* ------------------------------------------------------------------ *)
(** ** Data model *)

Record Position : Type := mkPosition { lat : number; lng : number }.

Record TouristLocation : Type := mkTouristLocation {
  id : string;
  position : Position;
  count : number;
  safetyScore : number;
  lastUpdate : string;
  nationality : option string;
  groupSize : option number
}.

Inductive SafetyLevel : Type := low | medium | high | critical.

Record SafetyZone : Type := mkSafetyZone {
  zone_id : string;
  zone_name : string;
  zone_position : Position;
  radius : number;
  safetyLevel : SafetyLevel;
  color : string;
  description : string
}.

Record Anchor : Type := mkAnchor {
  anchor_lat : number;
  anchor_lng : number;
  anchor_name : string
}.

(* ------------------------------------------------------------------ *)
(** ** Object literals and property lookup *)

(** What [obj[key]] can evaluate to for the two city tables: nothing, one
    of the literal's own arrays, or a member inherited from
    [Object.prototype] (a built-in function, or the prototype object
    itself for [__proto__]). *)
Inductive value (A : Type) : Type :=
| undefined
| array (l : list A)
| inherited (name : string).

Arguments undefined {A}.
Arguments array {A} l.
Arguments inherited {A} name.

(** The property names every ordinary object inherits. *)
Definition Object_prototype : list string :=
  [ "constructor"; "hasOwnProperty"; "isPrototypeOf"; "propertyIsEnumerable";
    "toLocaleString"; "toString"; "valueOf"; "__proto__";
    "__defineGetter__"; "__defineSetter__"; "__lookupGetter__";
    "__lookupSetter__" ].

Fixpoint own_property {A} (obj : list (string * list A)) (key : string)
  : option (list A) :=
  match obj with
  | [] => None
  | (k, v) :: rest => if String.eqb k key then Some v else own_property rest key
  end.

Definition is_inherited (key : string) : bool :=
  existsb (String.eqb key) Object_prototype.

(** [obj[key]]. *)
Definition get {A} (obj : list (string * list A)) (key : string) : value A :=
  match own_property obj key with
  | Some v => array v
  | None => if is_inherited key then inherited key else undefined
  end.

(** [a || b] on such values: arrays (even empty), functions and objects
    are truthy, [undefined] is falsy. *)
Definition or_else {A} (a b : value A) : value A :=
  match a with
  | undefined => b
  | _ => a
  end.

(** [Array.prototype.map] with the callback receiving element and index. *)
Fixpoint Array_map {St A B} (f : A -> nat -> JS St B) (l : list A) (index : nat)
  : JS St (list B) :=
  match l with
  | [] => ret []
  | x :: rest =>
      y <- f x index ;;
      ys <- Array_map f rest (S index) ;;
      ret (y :: ys)
  end.

(** [arr[i]] for a number [i]: the element when [i] is an index of the
    array, [undefined] otherwise. *)
Definition Array_get {A} (l : list A) (i : number) : option A :=
  if Rle_dec 0 i
  then if Req_dec_T (IZR (Int_part i)) i
       then nth_error l (Z.to_nat (Int_part i))
       else None
  else None.

(* ------------------------------------------------------------------ *)
(** ** generateMockTouristData *)

(** The three arrays of the [basePositions] literal, named so that
    statements can refer to them. *)
Definition delhiAnchors : list Anchor :=
  [ mkAnchor 28.6139 77.2090 "India Gate";
    mkAnchor 28.6562 77.2410 "Red Fort";
    mkAnchor 28.5244 77.1855 "Qutub Minar";
    mkAnchor 28.6129 77.2295 "Connaught Place";
    mkAnchor 28.5355 77.2459 "Chandni Chowk" ].

Definition agraAnchors : list Anchor :=
  [ mkAnchor 27.1751 78.0421 "Taj Mahal";
    mkAnchor 27.1833 78.0167 "Agra Fort";
    mkAnchor 27.2167 78.0167 "Fatehpur Sikri" ].

Definition jaipurAnchors : list Anchor :=
  [ mkAnchor 26.9124 75.7873 "City Palace";
    mkAnchor 26.9239 75.8267 "Hawa Mahal";
    mkAnchor 26.9859 75.8513 "Amber Fort" ].

Definition basePositions : list (string * list Anchor) :=
  [ ("Delhi", delhiAnchors); ("Agra", agraAnchors); ("Jaipur", jaipurAnchors) ].

Definition nationalities : list string :=
  [ "Indian"; "American"; "British"; "German"; "French" ].

(** The callback of [positions.map]: six draws and one clock reading, in
    the order the object literal evaluates its fields. *)
Definition mockLocation (city : string) (pos : Anchor) (index : nat)
  : JS World TouristLocation :=
  r_lat <- Math_random ;;
  r_lng <- Math_random ;;
  r_count <- Math_random ;;
  r_score <- Math_random ;;
  now <- Date_toISOString ;;
  r_nat <- Math_random ;;
  r_group <- Math_random ;;
  ret {| id := "tourist-" ++ city ++ "-" ++ string_of_index index;
         position := {| lat := anchor_lat pos + (r_lat - 0.5) * 0.01;
                        lng := anchor_lng pos + (r_lng - 0.5) * 0.01 |};
         count := Math_floor (r_count * 50) + 10;
         safetyScore := Math_floor (r_score * 4) + 6;
         lastUpdate := now;
         nationality := Array_get nationalities (Math_floor (r_nat * 5));
         groupSize := Some (Math_floor (r_group * 8) + 1) |}.

Definition generateMockTouristData (city : string)
  : JS World (list TouristLocation) :=
  match or_else (get basePositions city) (get basePositions "Delhi") with
  | array positions => Array_map (mockLocation city) positions 0%nat
  | _ => throw (TypeError "positions.map is not a function")
  end.

(* ------------------------------------------------------------------ *)
(** ** generateMockSafetyZones *)

(** The three arrays of the [baseZones] literal. *)
Definition delhiZones : list SafetyZone :=
  [ mkSafetyZone "zone-1" "Central Delhi" (mkPosition 28.6139 77.2090)
      2000 medium "#fbbf24" "Moderate safety zone with regular patrols";
    mkSafetyZone "zone-2" "Old Delhi" (mkPosition 28.6562 77.2410)
      1500 high "#ef4444" "High-risk area with increased monitoring";
    mkSafetyZone "zone-3" "New Delhi" (mkPosition 28.6129 77.2295)
      3000 low "#10b981" "Safe zone with excellent infrastructure" ].

Definition agraZones : list SafetyZone :=
  [ mkSafetyZone "zone-1" "Taj Mahal Area" (mkPosition 27.1751 78.0421)
      1000 low "#10b981" "Highly secured tourist area";
    mkSafetyZone "zone-2" "City Center" (mkPosition 27.1833 78.0167)
      2000 medium "#fbbf24" "Moderate safety with good facilities" ].

Definition jaipurZones : list SafetyZone :=
  [ mkSafetyZone "zone-1" "Pink City" (mkPosition 26.9124 75.7873)
      2500 low "#10b981" "Well-maintained heritage area";
    mkSafetyZone "zone-2" "Outskirts" (mkPosition 26.9859 75.8513)
      3000 medium "#fbbf24" "Moderate safety with some concerns" ].

Definition baseZones : list (string * list SafetyZone) :=
  [ ("Delhi", delhiZones); ("Agra", agraZones); ("Jaipur", jaipurZones) ].

(** The function has no call in it: it returns whatever the lookup (or
    its fallback) evaluates to. *)
Definition generateMockSafetyZones (city : string) : value SafetyZone :=
  or_else (get baseZones city) (get baseZones "Delhi").

(* ------------------------------------------------------------------ *)
(** ** The component: state, upstream, fetchTouristData *)

Record State : Type := mkState {
  touristLocations : list TouristLocation;
  safetyZones : value SafetyZone;
  loading : bool;
  error : option string;
  selectedLocation : option TouristLocation;
  totalTourists : number;
  averageSafetyScore : number
}.

(** The initial values handed to [useState]. *)
Definition initialState : State :=
  {| touristLocations := []; safetyZones := array []; loading := false;
     error := None; selectedLocation := None;
     totalTourists := 0; averageSafetyScore := 0 |}.

Record Store : Type := mkStore { ui : State; world : World }.

(** Run a computation on the environment inside the component. *)
Definition lift {A} (m : JS World A) : JS Store A :=
  fun s =>
    match m (world s) with
    | (c, w') => (c, {| ui := ui s; world := w' |})
    end.

Definition modify (f : State -> State) : JS Store unit :=
  fun s => (Normal tt, {| ui := f (ui s); world := world s |}).

Definition setTouristLocations (v : list TouristLocation) : JS Store unit :=
  modify (fun st => {| touristLocations := v; safetyZones := safetyZones st;
    loading := loading st; error := error st;
    selectedLocation := selectedLocation st;
    totalTourists := totalTourists st;
    averageSafetyScore := averageSafetyScore st |}).

Definition setSafetyZones (v : value SafetyZone) : JS Store unit :=
  modify (fun st => {| touristLocations := touristLocations st; safetyZones := v;
    loading := loading st; error := error st;
    selectedLocation := selectedLocation st;
    totalTourists := totalTourists st;
    averageSafetyScore := averageSafetyScore st |}).

Definition setLoading (v : bool) : JS Store unit :=
  modify (fun st => {| touristLocations := touristLocations st;
    safetyZones := safetyZones st; loading := v; error := error st;
    selectedLocation := selectedLocation st;
    totalTourists := totalTourists st;
    averageSafetyScore := averageSafetyScore st |}).

Definition setError (v : option string) : JS Store unit :=
  modify (fun st => {| touristLocations := touristLocations st;
    safetyZones := safetyZones st; loading := loading st; error := v;
    selectedLocation := selectedLocation st;
    totalTourists := totalTourists st;
    averageSafetyScore := averageSafetyScore st |}).

Definition setSelectedLocation (v : option TouristLocation) : State -> State :=
  fun st => {| touristLocations := touristLocations st;
    safetyZones := safetyZones st; loading := loading st; error := error st;
    selectedLocation := v;
    totalTourists := totalTourists st;
    averageSafetyScore := averageSafetyScore st |}.

Definition setTotalTourists (v : number) : JS Store unit :=
  modify (fun st => {| touristLocations := touristLocations st;
    safetyZones := safetyZones st; loading := loading st; error := error st;
    selectedLocation := selectedLocation st;
    totalTourists := v;
    averageSafetyScore := averageSafetyScore st |}).

Definition setAverageSafetyScore (v : number) : JS Store unit :=
  modify (fun st => {| touristLocations := touristLocations st;
    safetyZones := safetyZones st; loading := loading st; error := error st;
    selectedLocation := selectedLocation st;
    totalTourists := totalTourists st;
    averageSafetyScore := v |}).

(** The body of an ok response, with the fields the component reads. *)
Record HeatMapData : Type := mkHeatMapData {
  tourist_locations : list TouristLocation;
  safety_zones : list SafetyZone;
  total_tourists : number;
  average_safety_score : number
}.

(** [await response.json()] resolves with the parsed body or rejects. *)
Inductive JsonOutcome : Type :=
| JsonRejects (e : exn)
| JsonResolves (data : HeatMapData).

Record Response : Type := mkResponse { ok : bool; body : JsonOutcome }.

(** [await fetch(url)] rejects (network failure) or resolves with a
    response, ok or not.  The outcome is the upstream's choice. *)
Inductive FetchOutcome : Type :=
| FetchRejects (e : exn)
| FetchResolves (response : Response).

Definition fetch (upstream : FetchOutcome) (url : string) : JS Store Response :=
  match upstream with
  | FetchRejects e => throw e
  | FetchResolves response => ret response
  end.

Definition json (response : Response) : JS Store HeatMapData :=
  match body response with
  | JsonRejects e => throw e
  | JsonResolves data => ret data
  end.

(** [arr.reduce(f, init)]. *)
Definition reduce {A B} (f : B -> A -> B) (l : list A) (init : B) : B :=
  fold_left f l init.

(** [console.warn] and [console.error] leave the store alone. *)
Definition console_warn : JS Store unit := ret tt.

Definition console_error : JS Store unit := ret tt.

Definition fetchTouristData (upstream : FetchOutcome) (cityName : string)
  : JS Store unit :=
  call
    (try_finally
       (try_catch
          (setLoading true ;;;
           setError None ;;;
           (* Try to fetch from API first *)
           try_catch
             (response <- fetch upstream
                ("http://localhost:8000/api/tourist-heatmap/data/" ++ cityName) ;;
              if ok response
              then
                data <- json response ;;
                setTouristLocations (tourist_locations data) ;;;
                setSafetyZones (array (safety_zones data)) ;;;
                setTotalTourists (total_tourists data) ;;;
                setAverageSafetyScore (average_safety_score data) ;;;
                return_
              else ret tt)
             (fun apiError => console_warn) ;;;
           (* Fallback to mock data if API is not available *)
           mockTourists <- lift (generateMockTouristData cityName) ;;
           let mockZones := generateMockSafetyZones cityName in
           setTouristLocations mockTourists ;;;
           setSafetyZones mockZones ;;;
           (* Calculate totals *)
           let total := reduce (fun sum loc => sum + count loc) mockTourists 0 in
           let avgSafety :=
             reduce (fun sum loc => sum + safetyScore loc) mockTourists 0
             / INR (List.length mockTourists) in
           setTotalTourists total ;;;
           setAverageSafetyScore avgSafety)
          (fun err =>
             console_error ;;;
             setError (Some "Failed to fetch tourist data. Please try again.")))
       (setLoading false)).

(* ------------------------------------------------------------------ *)
(** ** handleMapClick *)

(** The distance the reducer computes between a location and the
    clicked position (the callback's parameter [position]). *)
Definition distanceTo (clicked : Position) (location : TouristLocation)
  : number :=
  Math_sqrt
    (Math_pow2 (lat (position location) - lat clicked) +
     Math_pow2 (lng (position location) - lng clicked)).

(** The callback of [touristLocations.reduce]. *)
Definition closer (clicked : Position) (closest location : TouristLocation)
  : TouristLocation :=
  let distance := distanceTo clicked location in
  let closestDistance := distanceTo clicked closest in
  if js_lt distance closestDistance then location else closest.

(** [touristLocations.reduce(closer, touristLocations[0])]: on an empty
    array the initial value [undefined] comes back and the callback is
    never run; otherwise element 0 exists and the fold starts from it. *)
Definition nearestLocation (clicked : Position) (locations : list TouristLocation)
  : option TouristLocation :=
  match nth_error locations 0 with
  | None => None
  | Some first => Some (reduce (closer clicked) locations first)
  end.

Definition handleMapClick (clicked : Position) (st : State) : State :=
  match nearestLocation clicked (touristLocations st) with
  | Some nearest => setSelectedLocation (Some nearest) st
  | None => st
  end.

(* ------------------------------------------------------------------ *)
(** ** Banding functions *)

Definition getSafetyColor (score : number) : string :=
  if js_ge score 8 then "#10b981"
  else if js_ge score 6 then "#fbbf24"
  else if js_ge score 4 then "#f97316"
  else "#ef4444".

Definition getSafetyLevel (score : number) : string :=
  if js_ge score 8 then "Safe"
  else if js_ge score 6 then "Moderate"
  else if js_ge score 4 then "Caution"
  else "High Risk".

(** The value a [safetyLevel] has at run time: the members of the union
    type are these four strings. *)
Definition levelString (level : SafetyLevel) : string :=
  match level with
  | low => "low"
  | medium => "medium"
  | high => "high"
  | critical => "critical"
  end.

(** The switch compares the string with each case label in turn and
    falls to [default] when none is equal. *)
Definition getZoneColor (level : string) : string :=
  if String.eqb level "low" then "#10b981"
  else if String.eqb level "medium" then "#fbbf24"
  else if String.eqb level "high" then "#f97316"
  else if String.eqb level "critical" then "#ef4444"
  else "#6b7280".

(* ================================================================== *)
(** * Auxiliary definitions

    Closed forms, concrete environments and the vocabulary in which the
    properties below are stated. *)

(** The environment after one location has been produced. *)
Definition advance (w : World) : World :=
  {| random := fun n => random w (6 + n); clock := fun n => clock w (1 + n) |}.

(** The location the callback builds from the head of the environment. *)
Definition locationOf (city : string) (pos : Anchor) (index : nat) (w : World)
  : TouristLocation :=
  {| id := "tourist-" ++ city ++ "-" ++ string_of_index index;
     position := {| lat := anchor_lat pos + (random w 0 - 0.5) * 0.01;
                    lng := anchor_lng pos + (random w 1 - 0.5) * 0.01 |};
     count := Math_floor (random w 2 * 50) + 10;
     safetyScore := Math_floor (random w 3 * 4) + 6;
     lastUpdate := clock w 0;
     nationality := Array_get nationalities (Math_floor (random w 4 * 5));
     groupSize := Some (Math_floor (random w 5 * 8) + 1) |}.

(** The batch [Array_map] builds over an anchor list, each location
    from the environment its predecessors left. *)
Fixpoint locationsOf (city : string) (l : list Anchor) (index : nat) (w : World)
  : list TouristLocation :=
  match l with
  | [] => []
  | pos :: rest =>
      locationOf city pos index w :: locationsOf city rest (S index) (advance w)
  end.

(** The environment after [n] locations. *)
Fixpoint advance_by (n : nat) (w : World) : World :=
  match n with
  | O => w
  | S m => advance_by m (advance w)
  end.

(** The own keys of both city tables. *)
Definition known_city (city : string) : Prop :=
  city = "Delhi" \/ city = "Agra" \/ city = "Jaipur".

(** Every draw is 0. *)
Definition zeroWorld : World :=
  {| random := fun _ => 0; clock := fun _ => "2025-01-21T10:30:00.000Z" |}.

(** Every draw is 1/2. *)
Definition halfWorld : World :=
  {| random := fun _ => 0.5; clock := fun _ => "2025-01-21T10:30:00.000Z" |}.

(** The upstream outcomes after which the routine goes on to the mock
    data: [fetch] rejected, the response was not ok, or reading the body
    of an ok response rejected (the inner [catch] swallows that too). *)
Definition falls_back (upstream : FetchOutcome) : Prop :=
  match upstream with
  | FetchRejects _ => True
  | FetchResolves response =>
      ok response = false \/ exists e, body response = JsonRejects e
  end.

(** [fetch] failed or answered with a non-ok response. *)
Definition fetch_failed (upstream : FetchOutcome) : Prop :=
  match upstream with
  | FetchRejects _ => True
  | FetchResolves response => ok response = false
  end.

Definition errorMessage : string :=
  "Failed to fetch tourist data. Please try again.".

(** The state the fallback path leaves when the synthesizer yields [locs]. *)
Definition mockState (city : string) (locs : list TouristLocation) (st : State)
  : State :=
  {| touristLocations := locs;
     safetyZones := generateMockSafetyZones city;
     loading := false;
     error := None;
     selectedLocation := selectedLocation st;
     totalTourists := reduce (fun sum loc => sum + count loc) locs 0;
     averageSafetyScore :=
       reduce (fun sum loc => sum + safetyScore loc) locs 0
       / INR (List.length locs) |}.

(** The state the outer [catch] and [finally] leave. *)
Definition failedState (st : State) : State :=
  {| touristLocations := touristLocations st;
     safetyZones := safetyZones st;
     loading := false;
     error := Some errorMessage;
     selectedLocation := selectedLocation st;
     totalTourists := totalTourists st;
     averageSafetyScore := averageSafetyScore st |}.

(** Unfold one run of [fetchTouristData] down to the synthesizer call. *)
Ltac run_fetch :=
  unfold fetchTouristData, call, try_finally, try_catch, bind, lift, fetch, json,
    setLoading, setError, setTouristLocations, setSafetyZones,
    setTotalTourists, setAverageSafetyScore, modify, console_warn,
    console_error, ret,
    throw, return_;
  cbn [ui world ok body fst snd].

(** The sum of a list of numbers and their arithmetic mean. *)
Definition sum_of (l : list number) : number := fold_right Rplus 0 l.

Definition mean_of (l : list number) : number := sum_of l / INR (List.length l).

(** The banding of the repository's documentation applied to an average
    safety score, in the words of the spec: 8 and above is the safe band
    (zone level low), 6 to 8 moderate (medium), 4 to 6 caution (high),
    below 4 high risk (critical). *)
Definition spec_band (avg : number) : SafetyLevel :=
  if js_ge avg 8 then low
  else if js_ge avg 6 then medium
  else if js_ge avg 4 then high
  else critical.

(** The spec's reading of a zone: its level is the band of the average
    safetyScore of the (at least one) locations it contains. *)
Definition level_derived_from_scores
  (locs : list TouristLocation) (z : SafetyZone) : Prop :=
  exists contained,
    contained <> [] /\ incl contained locs /\
    safetyLevel z = spec_band (mean_of (map safetyScore contained)).

(** Everything a location holds except the clock reading. *)
Definition drawn_fields (loc : TouristLocation)
  : string * Position * number * number * option string * option number :=
  (id loc, position loc, count loc, safetyScore loc, nationality loc,
   groupSize loc).

(** Two environments whose first [n] draws coincide. *)
Definition same_draws (n : nat) (w1 w2 : World) : Prop :=
  forall k, (k < n)%nat -> random w1 k = random w2 k.

(** Thirty draws of 0 followed by draws of 1/2. *)
Definition steppedWorld : World :=
  {| random := fun n => if (n <? 30)%nat then 0 else 0.5;
     clock := fun _ => "2025-01-21T10:30:00.000Z" |}.

(** Every draw is 0, read at a later time. *)
Definition laterZeroWorld : World :=
  {| random := fun _ => 0; clock := fun _ => "2025-01-21T10:30:30.000Z" |}.

(** A state with two locations on the map, and a click between them. *)
Definition twoLocationState : State :=
  {| touristLocations :=
       [ mkTouristLocation "tourist-Agra-0" (mkPosition 27.1751 78.0421) 10 6
           "2025-01-21T10:30:00.000Z" (Some "Indian") (Some 1);
         mkTouristLocation "tourist-Agra-1" (mkPosition 27.1833 78.0167) 35 8
           "2025-01-21T10:30:00.000Z" (Some "British") (Some 5) ];
     safetyZones := generateMockSafetyZones "Agra";
     loading := false;
     error := None;
     selectedLocation := None;
     totalTourists := 45;
     averageSafetyScore := 7 |}.

(** The state a readable ok response leaves. *)
Definition liveState (data : HeatMapData) (st : State) : State :=
  {| touristLocations := tourist_locations data;
     safetyZones := array (safety_zones data);
     loading := false;
     error := None;
     selectedLocation := selectedLocation st;
     totalTourists := total_tourists data;
     averageSafetyScore := average_safety_score data |}.

(** An ok response whose body does not parse, and a non-ok response. *)
Definition unreadableResponse : FetchOutcome :=
  FetchResolves (mkResponse true (JsonRejects (SyntaxError "Unexpected token"))).

Definition notFoundResponse : FetchOutcome :=
  FetchResolves (mkResponse false (JsonRejects (SyntaxError "Unexpected token"))).

(** The id the callback gives the location at [index]. *)
Definition mockId (city : string) (index : nat) : string :=
  "tourist-" ++ city ++ "-" ++ string_of_index index.

(** What the side panel renders below its heading: the conditional
    [loading ? spinner : error ? message : content], where a string
    counts as true unless it is empty. *)
Inductive Panel : Type :=
| Spinner
| ErrorBox (message : string)
| Content.

Definition sidePanel (st : State) : Panel :=
  if loading st then Spinner
  else match error st with
       | Some message =>
           if String.eqb message "" then Content else ErrorBox message
       | None => Content
       end.

(* ================================================================== *)
(** * The numeric code in IEEE double arithmetic

    The definitions above compute with exact reals.  Ranges, counts and
    control flow carry over to the doubles the component really
    computes with, but statements about exact sums, quotients and
    distances do not.  This module embeds the numeric code again over
    binary64 floats, operation for operation: the synthesizer, the two
    totals of the fallback path, the click handler and the two banding
    functions. *)

Module IEEE.
Import Floats.
#[local] Open Scope float_scope.
#[local] Set Warnings "-inexact-float".

Definition number := float.

(** The double of a (small) whole number. *)
Definition of_Z (z : Z) : number := PrimFloat.of_uint63 (Uint63.of_Z z).

(** The exact rational value of a finite double (0 for the others). *)
Definition to_Q (x : number) : Q :=
  match Prim2SF x with
  | S754_finite s m e =>
      let v := if (0 <=? e)%Z
               then inject_Z (Zpos m * 2 ^ e)
               else Qmake (Zpos m) (Pos.pow 2 (Z.to_pos (- e))) in
      if s then Qopp v else v
  | _ => 0%Q
  end.

(** [Math.floor]: zeros, infinities and NaN are returned as they are; a
    finite double with a non-negative exponent is a whole number
    already; otherwise the magnitude is cut and, for a negative
    argument with a fraction, moved one down. *)
Definition Math_floor (x : number) : number :=
  match Prim2SF x with
  | S754_finite s m e =>
      if (0 <=? e)%Z then x
      else
        let q := Z.shiftr (Zpos m) (- e) in
        if s
        then if (Z.shiftl q (- e) =? Zpos m)%Z then x else - of_Z (q + 1)
        else of_Z q
  | _ => x
  end.

(** [Math.pow(x, 2)]: for the exponent 2 the engines return the product
    [x * x], rounded once. *)
Definition Math_pow2 (x : number) : number := x * x.

Definition Math_sqrt (x : number) : number := PrimFloat.sqrt x.

Definition js_lt (x y : number) : bool := (x <? y).

(** The array index a number denotes, if any. *)
Definition to_index (x : number) : option nat :=
  match Prim2SF x with
  | S754_zero _ => Some 0%nat
  | S754_finite false m e =>
      if (0 <=? e)%Z then Some (Z.to_nat (Zpos m * 2 ^ e))
      else
        let q := Z.shiftr (Zpos m) (- e) in
        if (Z.shiftl q (- e) =? Zpos m)%Z then Some (Z.to_nat q) else None
  | _ => None
  end.

Definition Array_get {A} (l : list A) (i : number) : option A :=
  match to_index i with
  | Some n => nth_error l n
  | None => None
  end.

Record World : Type := mkWorld {
  random : nat -> number;
  clock : nat -> string
}.

(** The contract of [Math.random()]: every draw lies in [0, 1). *)
Definition unit_draws (w : World) : Prop :=
  forall n, (0 <=? random w n) = true /\ (random w n <? 1) = true.

Definition Math_random : JS World number :=
  fun w => (Normal (random w 0%nat),
            {| random := fun n => random w (S n); clock := clock w |}).

Definition Date_toISOString : JS World string :=
  fun w => (Normal (clock w 0%nat),
            {| random := random w; clock := fun n => clock w (S n) |}).

Record Position : Type := mkPosition { lat : number; lng : number }.

Record TouristLocation : Type := mkTouristLocation {
  id : string;
  position : Position;
  count : number;
  safetyScore : number;
  lastUpdate : string;
  nationality : option string;
  groupSize : option number
}.

Record Anchor : Type := mkAnchor {
  anchor_lat : number;
  anchor_lng : number;
  anchor_name : string
}.

Definition delhiAnchors : list Anchor :=
  [ mkAnchor 28.6139 77.2090 "India Gate";
    mkAnchor 28.6562 77.2410 "Red Fort";
    mkAnchor 28.5244 77.1855 "Qutub Minar";
    mkAnchor 28.6129 77.2295 "Connaught Place";
    mkAnchor 28.5355 77.2459 "Chandni Chowk" ].

Definition agraAnchors : list Anchor :=
  [ mkAnchor 27.1751 78.0421 "Taj Mahal";
    mkAnchor 27.1833 78.0167 "Agra Fort";
    mkAnchor 27.2167 78.0167 "Fatehpur Sikri" ].

Definition jaipurAnchors : list Anchor :=
  [ mkAnchor 26.9124 75.7873 "City Palace";
    mkAnchor 26.9239 75.8267 "Hawa Mahal";
    mkAnchor 26.9859 75.8513 "Amber Fort" ].

Definition basePositions : list (string * list Anchor) :=
  [ ("Delhi", delhiAnchors); ("Agra", agraAnchors); ("Jaipur", jaipurAnchors) ].

Definition mockLocation (city : string) (pos : Anchor) (index : nat)
  : JS World TouristLocation :=
  r_lat <- Math_random ;;
  r_lng <- Math_random ;;
  r_count <- Math_random ;;
  r_score <- Math_random ;;
  now <- Date_toISOString ;;
  r_nat <- Math_random ;;
  r_group <- Math_random ;;
  ret {| id := ("tourist-" ++ city ++ "-" ++ string_of_index index)%string;
         position := {| lat := anchor_lat pos + (r_lat - 0.5) * 0.01;
                        lng := anchor_lng pos + (r_lng - 0.5) * 0.01 |};
         count := Math_floor (r_count * 50) + 10;
         safetyScore := Math_floor (r_score * 4) + 6;
         lastUpdate := now;
         nationality := Array_get nationalities (Math_floor (r_nat * 5));
         groupSize := Some (Math_floor (r_group * 8) + 1) |}.

Definition generateMockTouristData (city : string)
  : JS World (list TouristLocation) :=
  match or_else (get basePositions city) (get basePositions "Delhi") with
  | array positions => Array_map (mockLocation city) positions 0%nat
  | _ => throw (TypeError "positions.map is not a function")
  end.

Record SafetyZone : Type := mkSafetyZone {
  zone_id : string;
  zone_name : string;
  zone_position : Position;
  radius : number;
  safetyLevel : SafetyLevel;
  color : string;
  description : string
}.

(** The three arrays of the [baseZones] literal. *)
Definition delhiZones : list SafetyZone :=
  [ mkSafetyZone "zone-1" "Central Delhi" (mkPosition 28.6139 77.2090)
      2000 medium "#fbbf24" "Moderate safety zone with regular patrols";
    mkSafetyZone "zone-2" "Old Delhi" (mkPosition 28.6562 77.2410)
      1500 high "#ef4444" "High-risk area with increased monitoring";
    mkSafetyZone "zone-3" "New Delhi" (mkPosition 28.6129 77.2295)
      3000 low "#10b981" "Safe zone with excellent infrastructure" ].

Definition agraZones : list SafetyZone :=
  [ mkSafetyZone "zone-1" "Taj Mahal Area" (mkPosition 27.1751 78.0421)
      1000 low "#10b981" "Highly secured tourist area";
    mkSafetyZone "zone-2" "City Center" (mkPosition 27.1833 78.0167)
      2000 medium "#fbbf24" "Moderate safety with good facilities" ].

Definition jaipurZones : list SafetyZone :=
  [ mkSafetyZone "zone-1" "Pink City" (mkPosition 26.9124 75.7873)
      2500 low "#10b981" "Well-maintained heritage area";
    mkSafetyZone "zone-2" "Outskirts" (mkPosition 26.9859 75.8513)
      3000 medium "#fbbf24" "Moderate safety with some concerns" ].

Definition baseZones : list (string * list SafetyZone) :=
  [ ("Delhi", delhiZones); ("Agra", agraZones); ("Jaipur", jaipurZones) ].

(** The function has no call in it: it returns whatever the lookup (or
    its fallback) evaluates to. *)
Definition generateMockSafetyZones (city : string) : value SafetyZone :=
  or_else (get baseZones city) (get baseZones "Delhi").

Record State : Type := mkState {
  touristLocations : list TouristLocation;
  safetyZones : value SafetyZone;
  loading : bool;
  error : option string;
  selectedLocation : option TouristLocation;
  totalTourists : number;
  averageSafetyScore : number
}.

(** The initial values handed to [useState]. *)
Definition initialState : State :=
  {| touristLocations := []; safetyZones := array []; loading := false;
     error := None; selectedLocation := None;
     totalTourists := 0; averageSafetyScore := 0 |}.

Record Store : Type := mkStore { ui : State; world : World }.

(** Run a computation on the environment inside the component. *)
Definition lift {A} (m : JS World A) : JS Store A :=
  fun s =>
    match m (world s) with
    | (c, w') => (c, {| ui := ui s; world := w' |})
    end.

Definition modify (f : State -> State) : JS Store unit :=
  fun s => (Normal tt, {| ui := f (ui s); world := world s |}).

Definition setTouristLocations (v : list TouristLocation) : JS Store unit :=
  modify (fun st => {| touristLocations := v; safetyZones := safetyZones st;
    loading := loading st; error := error st;
    selectedLocation := selectedLocation st;
    totalTourists := totalTourists st;
    averageSafetyScore := averageSafetyScore st |}).

Definition setSafetyZones (v : value SafetyZone) : JS Store unit :=
  modify (fun st => {| touristLocations := touristLocations st; safetyZones := v;
    loading := loading st; error := error st;
    selectedLocation := selectedLocation st;
    totalTourists := totalTourists st;
    averageSafetyScore := averageSafetyScore st |}).

Definition setLoading (v : bool) : JS Store unit :=
  modify (fun st => {| touristLocations := touristLocations st;
    safetyZones := safetyZones st; loading := v; error := error st;
    selectedLocation := selectedLocation st;
    totalTourists := totalTourists st;
    averageSafetyScore := averageSafetyScore st |}).

Definition setError (v : option string) : JS Store unit :=
  modify (fun st => {| touristLocations := touristLocations st;
    safetyZones := safetyZones st; loading := loading st; error := v;
    selectedLocation := selectedLocation st;
    totalTourists := totalTourists st;
    averageSafetyScore := averageSafetyScore st |}).

Definition setSelectedLocation (v : option TouristLocation) : State -> State :=
  fun st => {| touristLocations := touristLocations st;
    safetyZones := safetyZones st; loading := loading st; error := error st;
    selectedLocation := v;
    totalTourists := totalTourists st;
    averageSafetyScore := averageSafetyScore st |}.

Definition setTotalTourists (v : number) : JS Store unit :=
  modify (fun st => {| touristLocations := touristLocations st;
    safetyZones := safetyZones st; loading := loading st; error := error st;
    selectedLocation := selectedLocation st;
    totalTourists := v;
    averageSafetyScore := averageSafetyScore st |}).

Definition setAverageSafetyScore (v : number) : JS Store unit :=
  modify (fun st => {| touristLocations := touristLocations st;
    safetyZones := safetyZones st; loading := loading st; error := error st;
    selectedLocation := selectedLocation st;
    totalTourists := totalTourists st;
    averageSafetyScore := v |}).

(** The body of an ok response, with the fields the component reads. *)
Record HeatMapData : Type := mkHeatMapData {
  tourist_locations : list TouristLocation;
  safety_zones : list SafetyZone;
  total_tourists : number;
  average_safety_score : number
}.

(** [await response.json()] resolves with the parsed body or rejects. *)
Inductive JsonOutcome : Type :=
| JsonRejects (e : exn)
| JsonResolves (data : HeatMapData).

Record Response : Type := mkResponse { ok : bool; body : JsonOutcome }.

(** [await fetch(url)] rejects (network failure) or resolves with a
    response, ok or not.  The outcome is the upstream's choice. *)
Inductive FetchOutcome : Type :=
| FetchRejects (e : exn)
| FetchResolves (response : Response).

Definition fetch (upstream : FetchOutcome) (url : string) : JS Store Response :=
  match upstream with
  | FetchRejects e => throw e
  | FetchResolves response => ret response
  end.

Definition json (response : Response) : JS Store HeatMapData :=
  match body response with
  | JsonRejects e => throw e
  | JsonResolves data => ret data
  end.

(** [arr.reduce(f, init)]. *)
Definition reduce {A B} (f : B -> A -> B) (l : list A) (init : B) : B :=
  fold_left f l init.

(** [console.warn] and [console.error] leave the store alone. *)
Definition console_warn : JS Store unit := ret tt.

Definition console_error : JS Store unit := ret tt.

Definition fetchTouristData (upstream : FetchOutcome) (cityName : string)
  : JS Store unit :=
  call
    (try_finally
       (try_catch
          (setLoading true ;;;
           setError None ;;;
           (* Try to fetch from API first *)
           try_catch
             (response <- fetch upstream
                ("http://localhost:8000/api/tourist-heatmap/data/" ++ cityName) ;;
              if ok response
              then
                data <- json response ;;
                setTouristLocations (tourist_locations data) ;;;
                setSafetyZones (array (safety_zones data)) ;;;
                setTotalTourists (total_tourists data) ;;;
                setAverageSafetyScore (average_safety_score data) ;;;
                return_
              else ret tt)
             (fun apiError => console_warn) ;;;
           (* Fallback to mock data if API is not available *)
           mockTourists <- lift (generateMockTouristData cityName) ;;
           let mockZones := generateMockSafetyZones cityName in
           setTouristLocations mockTourists ;;;
           setSafetyZones mockZones ;;;
           (* Calculate totals *)
           let total := reduce (fun sum loc => sum + count loc) mockTourists 0 in
           let avgSafety :=
             reduce (fun sum loc => sum + safetyScore loc) mockTourists 0
             / of_Z (Z.of_nat (List.length mockTourists)) in
           setTotalTourists total ;;;
           setAverageSafetyScore avgSafety)
          (fun err =>
             console_error ;;;
             setError (Some "Failed to fetch tourist data. Please try again.")))
       (setLoading false)).

Definition distanceTo (clicked : Position) (location : TouristLocation)
  : number :=
  Math_sqrt
    (Math_pow2 (lat (position location) - lat clicked) +
     Math_pow2 (lng (position location) - lng clicked)).

Definition closer (clicked : Position) (closest location : TouristLocation)
  : TouristLocation :=
  let distance := distanceTo clicked location in
  let closestDistance := distanceTo clicked closest in
  if js_lt distance closestDistance then location else closest.

Definition nearestLocation (clicked : Position) (locations : list TouristLocation)
  : option TouristLocation :=
  match nth_error locations 0 with
  | None => None
  | Some first => Some (reduce (closer clicked) locations first)
  end.

Definition handleMapClick (clicked : Position) (st : State) : State :=
  match nearestLocation clicked (touristLocations st) with
  | Some nearest => setSelectedLocation (Some nearest) st
  | None => st
  end.

(** [x >= y] on doubles: false when either side is NaN. *)
Definition js_ge (x y : number) : bool := (y <=? x).

(** [Number.isNaN]: NaN is the one double that does not compare to
    itself. *)
Definition isNaN (x : number) : bool := negb (x <=? x).

Definition getSafetyColor (score : number) : string :=
  if js_ge score 8 then "#10b981"
  else if js_ge score 6 then "#fbbf24"
  else if js_ge score 4 then "#f97316"
  else "#ef4444".

Definition getSafetyLevel (score : number) : string :=
  if js_ge score 8 then "Safe"
  else if js_ge score 6 then "Moderate"
  else if js_ge score 4 then "Caution"
  else "High Risk".

(** ** Vocabulary of the statements *)

(** The upstream outcomes after which the routine goes on to the mock
    data. *)
Definition falls_back (upstream : FetchOutcome) : Prop :=
  match upstream with
  | FetchRejects _ => True
  | FetchResolves response =>
      ok response = false \/ exists e, body response = JsonRejects e
  end.

(** The state the fallback path leaves when the synthesizer yields [locs]. *)
Definition mockState (city : string) (locs : list TouristLocation) (st : State)
  : State :=
  {| touristLocations := locs;
     safetyZones := generateMockSafetyZones city;
     loading := false;
     error := None;
     selectedLocation := selectedLocation st;
     totalTourists := reduce (fun sum loc => sum + count loc) locs 0;
     averageSafetyScore :=
       reduce (fun sum loc => sum + safetyScore loc) locs 0
       / of_Z (Z.of_nat (List.length locs)) |}.

Definition sum_Q (l : list Q) : Q := fold_right Qplus 0%Q l.

(** The arithmetic mean of the scores of a batch, exactly. *)
Definition exact_mean (locs : list TouristLocation) : Q :=
  (sum_Q (map (fun loc => to_Q (safetyScore loc)) locs)
   / inject_Z (Z.of_nat (List.length locs)))%Q.

(** The sum of the counts of a batch, exactly. *)
Definition exact_total (locs : list TouristLocation) : Q :=
  sum_Q (map (fun loc => to_Q (count loc)) locs).

(** A double that is a whole number between two bounds. *)
Definition whole (lo hi : Z) (x : number) : Prop :=
  exists z : Z, (lo <= z <= hi)%Z /\ x = of_Z z.

(** The exact square of the Euclidean distance between two positions. *)
Definition exact_sqdist (p q : Position) : Q :=
  ((to_Q (lat p) - to_Q (lat q)) * (to_Q (lat p) - to_Q (lat q))
   + (to_Q (lng p) - to_Q (lng q)) * (to_Q (lng p) - to_Q (lng q)))%Q.

(** The whole numbers from [lo], [n] of them. *)
Definition Z_range (lo : Z) (n : nat) : list Z :=
  map (fun k => (lo + Z.of_nat k)%Z) (seq 0 n).

(** Draws that give the three Agra locations the scores 6, 7 and 7. *)
Definition sevensWorld : World :=
  {| random := fun n => if ((n =? 9) || (n =? 15))%nat then 0.25 else 0;
     clock := fun _ => "2025-01-21T10:30:00.000Z" |}.

(** The batch the synthesizer makes of them. *)
Definition sevensBatch : list TouristLocation :=
  [ mkTouristLocation "tourist-Agra-0"
      (mkPosition (27.1751 + (0 - 0.5) * 0.01) (78.0421 + (0 - 0.5) * 0.01))
      10 6 "2025-01-21T10:30:00.000Z" (Some "Indian") (Some 1);
    mkTouristLocation "tourist-Agra-1"
      (mkPosition (27.1833 + (0 - 0.5) * 0.01) (78.0167 + (0 - 0.5) * 0.01))
      10 7 "2025-01-21T10:30:00.000Z" (Some "Indian") (Some 1);
    mkTouristLocation "tourist-Agra-2"
      (mkPosition (27.2167 + (0 - 0.5) * 0.01) (78.0167 + (0 - 0.5) * 0.01))
      10 7 "2025-01-21T10:30:00.000Z" (Some "Indian") (Some 1) ].

(** Two locations on one latitude, the first a hair east of the second,
    and a click due south of the second. *)
Definition hairEast : TouristLocation :=
  mkTouristLocation "tourist-Agra-0" (mkPosition 27.1751 78.04000000000143) 10 6
    "2025-01-21T10:30:00.000Z" (Some "Indian") (Some 1).

Definition dueNorth : TouristLocation :=
  mkTouristLocation "tourist-Agra-1" (mkPosition 27.1751 78.04) 35 8
    "2025-01-21T10:30:00.000Z" (Some "British") (Some 5).

Definition hairState : State :=
  {| touristLocations := [hairEast; dueNorth];
     safetyZones := generateMockSafetyZones "Agra";
     loading := false;
     error := None;
     selectedLocation := None;
     totalTourists := 45;
     averageSafetyScore := 7 |}.

Definition hairClick : Position := mkPosition 27.17 78.04.

End IEEE.

(* ================================================================== *)
(** * Properties *)

(* ------------------------------------------------------------------ *)
(** ** Arithmetic of the draws *)

Lemma Math_floor_scaled (r : number) (n : Z) :
  0 <= r < 1 -> (0 < n)%Z ->
  exists k : Z, Math_floor (r * IZR n) = IZR k /\ (0 <= k < n)%Z.
Proof.
  intros [Hlo Hhi] Hn.
  exists (Int_part (r * IZR n)). split; [reflexivity|].
  destruct (base_Int_part (r * IZR n)) as [Hle Hgt].
  assert (Hpos : 0 < IZR n) by (apply IZR_lt; exact Hn).
  assert (Hx0 : 0 <= r * IZR n) by (apply Rmult_le_pos; lra).
  assert (Hx1 : r * IZR n < IZR n) by nra.
  split.
  - apply Z.lt_succ_r. apply lt_IZR. rewrite succ_IZR. lra.
  - apply lt_IZR. lra.
Qed.

Lemma Math_floor_IZR (k : Z) : Math_floor (IZR k) = IZR k.
Proof.
  unfold Math_floor. f_equal. symmetry. apply Int_part_spec. lra.
Qed.

Lemma Int_part_IZR (k : Z) : Int_part (IZR k) = k.
Proof. symmetry. apply Int_part_spec. lra. Qed.

(* ------------------------------------------------------------------ *)
(** ** The synthesizer in closed form *)

Lemma mockLocation_run city pos index w :
  mockLocation city pos index w = (Normal (locationOf city pos index w), advance w).
Proof. reflexivity. Qed.

Lemma Array_map_mockLocation city l :
  forall index w,
    Array_map (mockLocation city) l index w
    = (Normal (locationsOf city l index w), advance_by (List.length l) w).
Proof.
  induction l as [|pos rest IH]; intros index w.
  - reflexivity.
  - cbn [Array_map]. unfold bind at 1. rewrite mockLocation_run.
    unfold bind at 1. rewrite IH. reflexivity.
Qed.

Lemma advance_unit_draws w : unit_draws w -> unit_draws (advance w).
Proof. intros H n. apply (H (6 + n)%nat). Qed.

Lemma locationsOf_length city l : forall index w,
  List.length (locationsOf city l index w) = List.length l.
Proof.
  induction l as [|pos rest IH]; intros index w; cbn; [reflexivity|].
  now rewrite IH.
Qed.

(** A property of single locations that holds for every well-behaved
    environment holds for every location of the batch. *)
Lemma locationsOf_Forall (P : TouristLocation -> Prop) city :
  (forall pos index w, unit_draws w -> P (locationOf city pos index w)) ->
  forall l index w, unit_draws w -> Forall P (locationsOf city l index w).
Proof.
  intros HP l. induction l as [|pos rest IH]; intros index w Hw; cbn.
  - constructor.
  - constructor; [apply HP; exact Hw|].
    apply IH. apply advance_unit_draws. exact Hw.
Qed.

(* ------------------------------------------------------------------ *)
(** ** Lookup in the city tables *)

Lemma own_basePositions_unknown city :
  ~ known_city city -> own_property basePositions city = None.
Proof.
  intros H. unfold known_city in H. cbn [own_property basePositions].
  destruct (String.eqb_spec "Delhi" city) as [E|_]; [exfalso; auto|].
  destruct (String.eqb_spec "Agra" city) as [E|_]; [exfalso; auto|].
  destruct (String.eqb_spec "Jaipur" city) as [E|_]; [exfalso; auto|].
  reflexivity.
Qed.

Lemma own_baseZones_unknown city :
  ~ known_city city -> own_property baseZones city = None.
Proof.
  intros H. unfold known_city in H. cbn [own_property baseZones].
  destruct (String.eqb_spec "Delhi" city) as [E|_]; [exfalso; auto|].
  destruct (String.eqb_spec "Agra" city) as [E|_]; [exfalso; auto|].
  destruct (String.eqb_spec "Jaipur" city) as [E|_]; [exfalso; auto|].
  reflexivity.
Qed.

(** What [positions] is bound to, by cases on the city name. *)
Lemma positions_cases city :
  (exists l, or_else (get basePositions city) (get basePositions "Delhi") = array l
             /\ (List.length l = 3 \/ List.length l = 5)%nat)
  \/ (~ known_city city /\ is_inherited city = true
      /\ or_else (get basePositions city) (get basePositions "Delhi")
         = inherited city).
Proof.
  unfold get. cbn [own_property basePositions].
  destruct (String.eqb_spec "Delhi" city) as [E|N1].
  { left. eexists. split; [reflexivity|]. right. reflexivity. }
  destruct (String.eqb_spec "Agra" city) as [E|N2].
  { left. eexists. split; [reflexivity|]. left. reflexivity. }
  destruct (String.eqb_spec "Jaipur" city) as [E|N3].
  { left. eexists. split; [reflexivity|]. left. reflexivity. }
  destruct (is_inherited city) eqn:Hin.
  - right. split; [|split; reflexivity].
    intros [K|[K|K]]; congruence.
  - left. eexists. split; [reflexivity|]. right. reflexivity.
Qed.

(** Both tables have the same own keys, so the two lookups agree on
    whether the city resolves to an array. *)
Lemma zones_cases city :
  (exists zs, generateMockSafetyZones city = array zs
              /\ (List.length zs = 2 \/ List.length zs = 3)%nat
              /\ (is_inherited city = false \/ known_city city))
  \/ (~ known_city city /\ is_inherited city = true
      /\ generateMockSafetyZones city = inherited city).
Proof.
  unfold generateMockSafetyZones, get. cbn [own_property baseZones].
  destruct (String.eqb_spec "Delhi" city) as [E|N1].
  { left. eexists. split; [reflexivity|]. split; [right; reflexivity|].
    right. left. congruence. }
  destruct (String.eqb_spec "Agra" city) as [E|N2].
  { left. eexists. split; [reflexivity|]. split; [left; reflexivity|].
    right. right. left. congruence. }
  destruct (String.eqb_spec "Jaipur" city) as [E|N3].
  { left. eexists. split; [reflexivity|]. split; [left; reflexivity|].
    right. right. right. congruence. }
  destruct (is_inherited city) eqn:Hin.
  - right. split; [|split; reflexivity].
    intros [K|[K|K]]; congruence.
  - left. eexists. split; [reflexivity|]. split; [right; reflexivity|].
    left. reflexivity.
Qed.

(** When the synthesizer completes normally, its result is the closed
    form over some anchor table of three or five entries. *)
Lemma generateMockTouristData_Normal city w locs w' :
  generateMockTouristData city w = (Normal locs, w') ->
  exists l, or_else (get basePositions city) (get basePositions "Delhi") = array l
            /\ (List.length l = 3 \/ List.length l = 5)%nat
            /\ locs = locationsOf city l 0 w
            /\ w' = advance_by (List.length l) w.
Proof.
  unfold generateMockTouristData.
  destruct (positions_cases city) as [(l & -> & Hlen)|(_ & _ & ->)].
  - rewrite Array_map_mockLocation. intros H. inversion H; subst.
    exists l. auto.
  - unfold throw. discriminate.
Qed.

(** The synthesizer never completes by [return;]: it either yields a
    batch or throws. *)
Lemma generateMockTouristData_total city w :
  (exists locs w', generateMockTouristData city w = (Normal locs, w'))
  \/ (is_inherited city = true /\ ~ known_city city
      /\ generateMockTouristData city w
         = (Throw (TypeError "positions.map is not a function"), w)).
Proof.
  unfold generateMockTouristData.
  destruct (positions_cases city) as [(l & -> & Hlen)|(Hk & Hin & ->)].
  - left. rewrite Array_map_mockLocation. eauto.
  - right. auto.
Qed.

(** The runs for the three known cities, in closed form. *)
Lemma generateMockTouristData_Delhi w :
  generateMockTouristData "Delhi" w
  = (Normal (locationsOf "Delhi" delhiAnchors 0 w), advance_by 5 w).
Proof.
  unfold generateMockTouristData.
  change (or_else (get basePositions "Delhi") (get basePositions "Delhi"))
    with (array delhiAnchors).
  apply Array_map_mockLocation.
Qed.

Lemma generateMockTouristData_Agra w :
  generateMockTouristData "Agra" w
  = (Normal (locationsOf "Agra" agraAnchors 0 w), advance_by 3 w).
Proof.
  unfold generateMockTouristData.
  change (or_else (get basePositions "Agra") (get basePositions "Delhi"))
    with (array agraAnchors).
  apply Array_map_mockLocation.
Qed.

Lemma generateMockTouristData_Jaipur w :
  generateMockTouristData "Jaipur" w
  = (Normal (locationsOf "Jaipur" jaipurAnchors 0 w), advance_by 3 w).
Proof.
  unfold generateMockTouristData.
  change (or_else (get basePositions "Jaipur") (get basePositions "Delhi"))
    with (array jaipurAnchors).
  apply Array_map_mockLocation.
Qed.

Lemma generateMockSafetyZones_known :
  generateMockSafetyZones "Delhi" = array delhiZones
  /\ generateMockSafetyZones "Agra" = array agraZones
  /\ generateMockSafetyZones "Jaipur" = array jaipurZones.
Proof. repeat split; reflexivity. Qed.

(* ------------------------------------------------------------------ *)
(** ** Two concrete environments *)

Lemma zeroWorld_unit : unit_draws zeroWorld.
Proof. intros n. cbn. lra. Qed.

Lemma halfWorld_unit : unit_draws halfWorld.
Proof. intros n. cbn. lra. Qed.

(* ------------------------------------------------------------------ *)
(** ** Safety scores of synthesized locations *)

Lemma locationOf_score city pos index w :
  unit_draws w ->
  exists z : Z, safetyScore (locationOf city pos index w) = IZR z /\ (6 <= z <= 9)%Z.
Proof.
  intros Hw. cbn [safetyScore locationOf].
  destruct (Math_floor_scaled (random w 3) 4 (Hw 3%nat)) as (k & Hk & Hrange); [lia|].
  rewrite Hk. exists (k + 6)%Z. split; [|lia].
  rewrite plus_IZR. reflexivity.
Qed.

Lemma js_ge_IZR (a b : Z) : js_ge (IZR a) (IZR b) = (b <=? a)%Z.
Proof.
  unfold js_ge. destruct (Rge_dec (IZR a) (IZR b)) as [H|H].
  - symmetry. apply Z.leb_le. apply le_IZR. lra.
  - symmetry. apply Z.leb_gt. apply lt_IZR. lra.
Qed.

Lemma Array_get_index {A} (l : list A) (k : Z) :
  (0 <= k)%Z -> Array_get l (IZR k) = nth_error l (Z.to_nat k).
Proof.
  intros Hk. unfold Array_get.
  destruct (Rle_dec 0 (IZR k)) as [_|Hneg]; [|exfalso; apply Hneg, IZR_le, Hk].
  rewrite Int_part_IZR.
  destruct (Req_dec_T (IZR k) (IZR k)) as [_|Hne]; [reflexivity|congruence].
Qed.

(** The other drawn fields: a count of 10 to 59, one of the five
    nationalities, a group size of 1 to 8. *)
Lemma locationOf_ranges city pos index w :
  unit_draws w ->
  (exists c : Z, count (locationOf city pos index w) = IZR c /\ (10 <= c <= 59)%Z)
  /\ (exists n, nationality (locationOf city pos index w) = Some n
                /\ In n nationalities)
  /\ (exists g : Z, groupSize (locationOf city pos index w) = Some (IZR g)
                    /\ (1 <= g <= 8)%Z).
Proof.
  intros Hw. cbn [count nationality groupSize locationOf].
  destruct (Math_floor_scaled (random w 2) 50 (Hw 2%nat)) as (c & Hc & Hcr); [lia|].
  destruct (Math_floor_scaled (random w 4) 5 (Hw 4%nat)) as (n & Hn & Hnr); [lia|].
  destruct (Math_floor_scaled (random w 5) 8 (Hw 5%nat)) as (g & Hg & Hgr); [lia|].
  rewrite Hc, Hn, Hg. split; [|split].
  - exists (c + 10)%Z. rewrite plus_IZR. split; [reflexivity|lia].
  - rewrite Array_get_index by lia.
    assert (Hcases : (n = 0 \/ n = 1 \/ n = 2 \/ n = 3 \/ n = 4)%Z) by lia.
    unfold nationalities.
    destruct Hcases as [-> | [-> | [-> | [-> | ->]]]]; cbn;
      eexists; (split; [reflexivity|]); tauto.
  - exists (g + 1)%Z. rewrite plus_IZR. split; [reflexivity|lia].
Qed.

Lemma mock_safetyScore_6_to_9_core city w locs w' :
  unit_draws w ->
  generateMockTouristData city w = (Normal locs, w') ->
  forall loc, In loc locs ->
    exists z : Z, safetyScore loc = IZR z /\ (6 <= z <= 9)%Z.
Proof.
  intros Hw Hrun loc Hin.
  destruct (generateMockTouristData_Normal _ _ _ _ Hrun) as (l & _ & _ & -> & _).
  pose proof (locationsOf_Forall
    (fun loc => exists z : Z, safetyScore loc = IZR z /\ (6 <= z <= 9)%Z)
    city (fun pos index w0 H => locationOf_score city pos index w0 H)
    l 0%nat w Hw) as Hall.
  rewrite Forall_forall in Hall. exact (Hall loc Hin).
Qed.

(** C3: every tourist location that generateMockTouristData produces, for
    any city and any outcome of the random generator, carries a
    safetyScore that is an integer between 1 and 10. *)
Theorem mock_safetyScore_integer_1_10 city w locs w' :
  unit_draws w ->
  generateMockTouristData city w = (Normal locs, w') ->
  forall loc, In loc locs ->
    exists z : Z, safetyScore loc = IZR z /\ (1 <= z <= 10)%Z.
Proof.
  intros Hw Hrun loc Hin.
  destruct (mock_safetyScore_6_to_9_core city w locs w' Hw Hrun loc Hin)
    as (z & Hz & Hrange).
  exists z. split; [exact Hz|lia].
Qed.

Lemma mock_safetyScore_integer_1_10_witness :
  unit_draws zeroWorld /\
  generateMockTouristData "Agra" zeroWorld
  = (Normal (locationsOf "Agra" agraAnchors 0 zeroWorld), advance_by 3 zeroWorld) /\
  exists z : Z,
    safetyScore (locationOf "Agra" (mkAnchor 27.1751 78.0421 "Taj Mahal") 0 zeroWorld)
    = IZR z /\ (1 <= z <= 10)%Z.
Proof.
  split; [exact zeroWorld_unit|].
  split; [exact (generateMockTouristData_Agra zeroWorld)|].
  apply (mock_safetyScore_integer_1_10 "Agra" zeroWorld _ _
           zeroWorld_unit (generateMockTouristData_Agra zeroWorld)).
  left. reflexivity.
Defined.

(** C8: every tourist location that generateMockTouristData produces has
    a safetyScore among 6, 7, 8 and 9, so getSafetyLevel never labels a
    synthesized location 'Caution' or 'High Risk'. *)
Theorem mock_safetyScore_6_to_9 city w locs w' :
  unit_draws w ->
  generateMockTouristData city w = (Normal locs, w') ->
  forall loc, In loc locs ->
    (safetyScore loc = 6 \/ safetyScore loc = 7 \/
     safetyScore loc = 8 \/ safetyScore loc = 9) /\
    getSafetyLevel (safetyScore loc) <> "Caution" /\
    getSafetyLevel (safetyScore loc) <> "High Risk".
Proof.
  intros Hw Hrun loc Hin.
  destruct (mock_safetyScore_6_to_9_core city w locs w' Hw Hrun loc Hin)
    as (z & Hz & Hrange).
  rewrite Hz. unfold getSafetyLevel. rewrite !js_ge_IZR.
  assert (Hcases : (z = 6 \/ z = 7 \/ z = 8 \/ z = 9)%Z) by lia.
  destruct Hcases as [-> | [-> | [-> | ->]]]; cbn;
    (split; [tauto | split; discriminate]).
Qed.

Lemma mock_safetyScore_6_to_9_witness :
  unit_draws halfWorld /\
  generateMockTouristData "Jaipur" halfWorld
  = (Normal (locationsOf "Jaipur" jaipurAnchors 0 halfWorld),
     advance_by 3 halfWorld) /\
  let loc := locationOf "Jaipur" (mkAnchor 26.9124 75.7873 "City Palace") 0 halfWorld in
  (safetyScore loc = 6 \/ safetyScore loc = 7 \/
   safetyScore loc = 8 \/ safetyScore loc = 9) /\
  getSafetyLevel (safetyScore loc) <> "Caution" /\
  getSafetyLevel (safetyScore loc) <> "High Risk".
Proof.
  split; [exact halfWorld_unit|].
  split; [exact (generateMockTouristData_Jaipur halfWorld)|].
  apply (mock_safetyScore_6_to_9 "Jaipur" halfWorld _ _
           halfWorld_unit (generateMockTouristData_Jaipur halfWorld)).
  left. reflexivity.
Defined.

(* ------------------------------------------------------------------ *)
(** ** Runs of fetchTouristData *)

Lemma fetch_failed_falls_back upstream :
  fetch_failed upstream -> falls_back upstream.
Proof. destruct upstream; cbn; auto. Qed.

Lemma fetchTouristData_fallback_Normal upstream city s locs w' :
  falls_back upstream ->
  generateMockTouristData city (world s) = (Normal locs, w') ->
  fetchTouristData upstream city s
  = (Normal tt, {| ui := mockState city locs (ui s); world := w' |}).
Proof.
  intros Hfb Hgen.
  destruct upstream as [e|[isok b]]; cbn in Hfb.
  - run_fetch. rewrite Hgen. reflexivity.
  - destruct Hfb as [Hok|[e Hb]]; cbn in *; subst.
    + run_fetch. rewrite Hgen. reflexivity.
    + destruct isok; run_fetch; rewrite Hgen; reflexivity.
Qed.

Lemma fetchTouristData_fallback_Throw upstream city s e w' :
  falls_back upstream ->
  generateMockTouristData city (world s) = (Throw e, w') ->
  fetchTouristData upstream city s
  = (Normal tt, {| ui := failedState (ui s); world := w' |}).
Proof.
  intros Hfb Hgen.
  destruct upstream as [e0|[isok b]]; cbn in Hfb.
  - run_fetch. rewrite Hgen. reflexivity.
  - destruct Hfb as [Hok|[e0 Hb]]; cbn in *; subst.
    + run_fetch. rewrite Hgen. reflexivity.
    + destruct isok; run_fetch; rewrite Hgen; reflexivity.
Qed.

Lemma fetchTouristData_live data city s :
  fetchTouristData (FetchResolves (mkResponse true (JsonResolves data))) city s
  = (Normal tt,
     {| ui := {| touristLocations := tourist_locations data;
                 safetyZones := array (safety_zones data);
                 loading := false;
                 error := None;
                 selectedLocation := selectedLocation (ui s);
                 totalTourists := total_tourists data;
                 averageSafetyScore := average_safety_score data |};
        world := world s |}).
Proof. reflexivity. Qed.

Lemma falls_back_or_live upstream :
  falls_back upstream \/
  exists data, upstream = FetchResolves (mkResponse true (JsonResolves data)).
Proof.
  destruct upstream as [e|[[|] [e|data]]]; cbn; eauto.
Qed.

(** Whatever the upstream does and whatever the city, the call itself
    completes normally and leaves [loading] off. *)
Lemma fetchTouristData_completes upstream city s :
  exists s', fetchTouristData upstream city s = (Normal tt, s')
             /\ loading (ui s') = false.
Proof.
  destruct (falls_back_or_live upstream) as [Hfb|[data ->]].
  - destruct (generateMockTouristData_total city (world s))
      as [(locs & w' & Hgen)|(_ & _ & Hgen)].
    + rewrite (fetchTouristData_fallback_Normal _ _ _ _ _ Hfb Hgen). eauto.
    + rewrite (fetchTouristData_fallback_Throw _ _ _ _ _ Hfb Hgen). eauto.
  - rewrite fetchTouristData_live. eauto.
Qed.

(** For a city that resolves to one of the tables, a failed fetch is
    absorbed: mock locations and zones are installed and no error is
    recorded. *)
Lemma fetch_failure_absorbed upstream city s :
  fetch_failed upstream ->
  is_inherited city = false \/ known_city city ->
  exists locs w',
    generateMockTouristData city (world s) = (Normal locs, w')
    /\ fetchTouristData upstream city s
       = (Normal tt, {| ui := mockState city locs (ui s); world := w' |})
    /\ (exists zs, generateMockSafetyZones city = array zs).
Proof.
  intros Hf Hcity.
  destruct (generateMockTouristData_total city (world s))
    as [(locs & w' & Hgen)|(Hin & Hk & _)].
  - exists locs, w'. split; [exact Hgen|]. split.
    + apply fetchTouristData_fallback_Normal;
        [apply fetch_failed_falls_back; exact Hf|exact Hgen].
    + destruct (zones_cases city) as [(zs & Hz & _)|(Hk & Hin & _)]; [eauto|].
      destruct Hcity; [congruence|contradiction].
  - destruct Hcity; [congruence|contradiction].
Qed.

(** C1: with the city name "constructor" the lookup in the anchor table
    finds the inherited Object constructor instead of falling back, the
    synthesizer throws, and a failed fetch ends in the error state with
    no mock data installed, for every starting state and environment. *)
Theorem fetch_failure_not_absorbed_for_inherited_name e st w :
  fetchTouristData (FetchRejects e) "constructor" {| ui := st; world := w |}
  = (Normal tt, {| ui := failedState st; world := w |})
  /\ error (failedState st) = Some errorMessage
  /\ touristLocations (failedState st) = touristLocations st.
Proof.
  split; [|split; reflexivity].
  apply (fetchTouristData_fallback_Throw (FetchRejects e) "constructor"
           {| ui := st; world := w |}
           (TypeError "positions.map is not a function") w I).
  reflexivity.
Qed.

(* ------------------------------------------------------------------ *)
(** ** Totals of the fallback path *)

Lemma reduce_plus {A} (f : A -> number) (l : list A) :
  forall init, reduce (fun sum x => sum + f x) l init = init + sum_of (map f l).
Proof.
  unfold reduce, sum_of.
  induction l as [|x rest IH]; intros init; cbn [fold_left map fold_right].
  - lra.
  - rewrite IH. lra.
Qed.

Lemma generateMockTouristData_nonempty city w locs w' :
  generateMockTouristData city w = (Normal locs, w') -> locs <> [].
Proof.
  intros Hrun.
  destruct (generateMockTouristData_Normal _ _ _ _ Hrun) as (l & _ & Hlen & -> & _).
  intros Hnil. apply (f_equal (@List.length _)) in Hnil.
  rewrite locationsOf_length in Hnil. cbn in Hnil. lia.
Qed.

(* ------------------------------------------------------------------ *)
(** ** Unknown city names *)

(** An unknown name that [Object.prototype] does not define falls back
    to Delhi's tables in both generators. *)
Lemma unknown_city_falls_back city w :
  ~ known_city city -> is_inherited city = false ->
  (exists l, own_property basePositions "Delhi" = Some l
             /\ generateMockTouristData city w
                = (Normal (locationsOf city l 0 w), advance_by 5 w))
  /\ generateMockSafetyZones city = generateMockSafetyZones "Delhi".
Proof.
  intros Hk Hin. split.
  - eexists. split; [reflexivity|].
    unfold generateMockTouristData, get.
    rewrite (own_basePositions_unknown city Hk), Hin.
    cbn [or_else own_property basePositions String.eqb Ascii.eqb Bool.eqb].
    rewrite Array_map_mockLocation. reflexivity.
  - unfold generateMockSafetyZones, get.
    rewrite (own_baseZones_unknown city Hk), Hin. reflexivity.
Qed.

(** C2: none of the names inherited from Object.prototype ("constructor",
    "toString", "valueOf", ...) is a known city, yet for none of them
    does either generator fall back to Delhi's table: the lookup yields
    the inherited member, generateMockTouristData throws a TypeError and
    generateMockSafetyZones returns that member instead of zones. *)
Theorem inherited_name_defeats_fallback w :
  Forall (fun city =>
            ~ known_city city
            /\ generateMockTouristData city w
               = (Throw (TypeError "positions.map is not a function"), w)
            /\ generateMockSafetyZones city = inherited city
            /\ generateMockSafetyZones city <> generateMockSafetyZones "Delhi")
         Object_prototype.
Proof.
  unfold Object_prototype.
  repeat (constructor;
          [split; [intros [H|[H|H]]; discriminate H|];
           split; [reflexivity|]; split; [reflexivity|discriminate]|]).
  constructor.
Qed.

(** For every name that resolves to a table, known or not, the zone
    generator returns two or three zones. *)
Lemma zones_count_resolved city :
  is_inherited city = false \/ known_city city ->
  exists zs, generateMockSafetyZones city = array zs
             /\ (2 <= List.length zs <= 3)%nat.
Proof.
  intros Hcity.
  destruct (zones_cases city) as [(zs & Hz & Hlen & _)|(Hk & Hin & _)].
  - exists zs. split; [exact Hz|lia].
  - destruct Hcity; [congruence|contradiction].
Qed.

(* ------------------------------------------------------------------ *)
(** ** Zone levels against location scores *)

(** The banding is the one the component's own colour tables agree on. *)
Lemma spec_band_color avg :
  getZoneColor (levelString (spec_band avg)) = getSafetyColor avg.
Proof.
  unfold spec_band, getSafetyColor.
  destruct (js_ge avg 8); [reflexivity|].
  destruct (js_ge avg 6); [reflexivity|].
  destruct (js_ge avg 4); reflexivity.
Qed.

Lemma sum_of_lower_bound (c : number) (l : list number) :
  (forall x, In x l -> c <= x) -> c * INR (List.length l) <= sum_of l.
Proof.
  induction l as [|x rest IH]; intros H.
  - cbn. lra.
  - cbn [sum_of fold_right]. change (fold_right Rplus 0 rest) with (sum_of rest).
    cbn [List.length]. rewrite S_INR.
    assert (c <= x) by (apply H; left; reflexivity).
    assert (c * INR (List.length rest) <= sum_of rest)
      by (apply IH; intros y Hy; apply H; right; exact Hy).
    lra.
Qed.

Lemma mean_of_lower_bound (c : number) (l : list number) :
  l <> [] -> (forall x, In x l -> c <= x) -> c <= mean_of l.
Proof.
  intros Hne H. unfold mean_of.
  assert (Hlen : 0 < INR (List.length l)).
  { apply lt_0_INR. destruct l; [contradiction|cbn; lia]. }
  pose proof (sum_of_lower_bound c l H) as Hsum.
  apply Rmult_le_reg_r with (r := INR (List.length l)); [exact Hlen|].
  unfold Rdiv. rewrite Rmult_assoc, Rinv_l; lra.
Qed.

(** Averages of synthesized scores stay at 6 or above, so their band is
    never high or critical. *)
Lemma mock_scores_band city w locs w' contained :
  unit_draws w ->
  generateMockTouristData city w = (Normal locs, w') ->
  contained <> [] -> incl contained locs ->
  spec_band (mean_of (map safetyScore contained)) = low \/
  spec_band (mean_of (map safetyScore contained)) = medium.
Proof.
  intros Hw Hgen Hne Hincl.
  assert (Hmean : 6 <= mean_of (map safetyScore contained)).
  { apply mean_of_lower_bound.
    - destruct contained; [contradiction|discriminate].
    - intros x Hx. apply in_map_iff in Hx. destruct Hx as (loc & <- & Hloc).
      destruct (mock_safetyScore_6_to_9_core city w locs w' Hw Hgen loc (Hincl loc Hloc))
        as (z & -> & Hz).
      apply IZR_le. lia. }
  unfold spec_band, js_ge.
  destruct (Rge_dec _ 8); [left; reflexivity|].
  destruct (Rge_dec _ 6); [right; reflexivity|lra].
Qed.

(** C5, as stated, fails: with Delhi and every draw 0, the zone "Old
    Delhi" has level high, which is the band of no average of
    synthesized scores. *)
Lemma zone_level_derived_counterexample :
  ~ (forall city w locs w' zs,
        unit_draws w ->
        generateMockTouristData city w = (Normal locs, w') ->
        generateMockSafetyZones city = array zs ->
        forall z, In z zs -> level_derived_from_scores locs z).
Proof.
  intros H.
  pose (oldDelhi := mkSafetyZone "zone-2" "Old Delhi" (mkPosition 28.6562 77.2410)
          1500 high "#ef4444" "High-risk area with increased monitoring").
  destruct (H "Delhi" zeroWorld _ _ _ zeroWorld_unit
              (generateMockTouristData_Delhi zeroWorld)
              (proj1 generateMockSafetyZones_known) oldDelhi)
    as (contained & Hne & Hincl & Hlevel).
  { right. left. reflexivity. }
  cbn [safetyLevel oldDelhi] in Hlevel.
  destruct (mock_scores_band "Delhi" zeroWorld _ _ contained
              zeroWorld_unit (generateMockTouristData_Delhi zeroWorld) Hne Hincl)
    as [Hb|Hb];
    rewrite Hb in Hlevel; discriminate.
Qed.

(** C5, amended: the levels of the zones a city gets are the constants of
    its zone table -- low, medium for Agra and Jaipur; medium, high, low
    for Delhi and for every other name that resolves to a table -- and so
    are fixed by the city name alone, whatever the locations' scores. *)
Theorem zone_levels_fixed_by_city city zs :
  generateMockSafetyZones city = array zs ->
  map safetyLevel zs
  = if (String.eqb "Agra" city || String.eqb "Jaipur" city)%bool
    then [low; medium]
    else [medium; high; low].
Proof.
  unfold generateMockSafetyZones, get. cbn [own_property baseZones].
  destruct (String.eqb_spec "Delhi" city) as [E|N1].
  { subst city. intros H. inversion H; subst. reflexivity. }
  destruct (String.eqb "Agra" city).
  { intros H. inversion H; subst. reflexivity. }
  destruct (String.eqb "Jaipur" city).
  { intros H. inversion H; subst. reflexivity. }
  destruct (is_inherited city).
  - cbn [or_else]. discriminate.
  - intros H. inversion H; subst. reflexivity.
Qed.

Lemma zone_levels_fixed_by_city_witness :
  generateMockSafetyZones "Agra" = array agraZones /\
  map safetyLevel agraZones = [low; medium].
Proof.
  split; [exact (proj1 (proj2 generateMockSafetyZones_known))|].
  exact (zone_levels_fixed_by_city "Agra" agraZones
           (proj1 (proj2 generateMockSafetyZones_known))).
Defined.

(* ------------------------------------------------------------------ *)
(** ** Dependence on the random draws *)

Lemma same_draws_le n m w1 w2 :
  (n <= m)%nat -> same_draws m w1 w2 -> same_draws n w1 w2.
Proof. intros Hle H k Hk. apply H. lia. Qed.

Lemma same_draws_advance n w1 w2 :
  same_draws (6 + n) w1 w2 -> same_draws n (advance w1) (advance w2).
Proof. intros H k Hk. cbn. apply H. lia. Qed.

Lemma locationOf_same_draws city pos index w1 w2 :
  same_draws 6 w1 w2 ->
  drawn_fields (locationOf city pos index w1)
  = drawn_fields (locationOf city pos index w2).
Proof.
  intros H. unfold drawn_fields, locationOf.
  cbn [id position count safetyScore nationality groupSize].
  rewrite (H 0%nat), (H 1%nat), (H 2%nat), (H 3%nat), (H 4%nat), (H 5%nat) by lia.
  reflexivity.
Qed.

Lemma locationsOf_same_draws city l :
  forall index w1 w2,
    same_draws (6 * List.length l) w1 w2 ->
    map drawn_fields (locationsOf city l index w1)
    = map drawn_fields (locationsOf city l index w2).
Proof.
  induction l as [|pos rest IH]; intros index w1 w2 H.
  - reflexivity.
  - cbn [locationsOf map]. f_equal.
    + apply locationOf_same_draws.
      apply (same_draws_le 6 (6 * List.length (pos :: rest))); [cbn; lia|exact H].
    + apply IH. apply same_draws_advance.
      apply (same_draws_le _ (6 * List.length (pos :: rest))); [cbn; lia|exact H].
Qed.

Lemma random_advance_by n : forall w k,
  random (advance_by n w) k = random w (6 * n + k).
Proof.
  induction n as [|m IH]; intros w k.
  - reflexivity.
  - cbn [advance_by]. rewrite IH. cbn [advance random]. f_equal. lia.
Qed.

Lemma same_draws_zeroWorld_later : same_draws 30 zeroWorld laterZeroWorld.
Proof. intros k _. reflexivity. Qed.

Lemma drawn_fields_components locs1 locs2 :
  map drawn_fields locs1 = map drawn_fields locs2 ->
  map position locs1 = map position locs2
  /\ map count locs1 = map count locs2
  /\ map safetyScore locs1 = map safetyScore locs2
  /\ map nationality locs1 = map nationality locs2
  /\ map groupSize locs1 = map groupSize locs2
  /\ map id locs1 = map id locs2.
Proof.
  intros H. repeat split.
  - apply (f_equal (map (fun t => snd (fst (fst (fst (fst t))))))) in H.
    rewrite !map_map in H. exact H.
  - apply (f_equal (map (fun t => snd (fst (fst (fst t)))))) in H.
    rewrite !map_map in H. exact H.
  - apply (f_equal (map (fun t => snd (fst (fst t))))) in H.
    rewrite !map_map in H. exact H.
  - apply (f_equal (map (fun t => snd (fst t)))) in H.
    rewrite !map_map in H. exact H.
  - apply (f_equal (map (fun t => snd t))) in H.
    rewrite !map_map in H. exact H.
  - apply (f_equal (map (fun t => fst (fst (fst (fst (fst t))))))) in H.
    rewrite !map_map in H. exact H.
Qed.

(** C6: the synthesizer is deterministic: two calls of
    generateMockTouristData with the same city argument and the same
    seed state -- the same results of Math.random(), of which a call
    reads at most 30 -- complete alike and produce equal positions,
    counts, safety scores, nationalities and group sizes (and ids),
    whatever the clock shows. *)
Theorem mock_data_deterministic city w1 w2 locs1 w1' :
  same_draws 30 w1 w2 ->
  generateMockTouristData city w1 = (Normal locs1, w1') ->
  exists locs2 w2',
    generateMockTouristData city w2 = (Normal locs2, w2')
    /\ map position locs1 = map position locs2
    /\ map count locs1 = map count locs2
    /\ map safetyScore locs1 = map safetyScore locs2
    /\ map nationality locs1 = map nationality locs2
    /\ map groupSize locs1 = map groupSize locs2
    /\ map id locs1 = map id locs2.
Proof.
  intros Hsame Hgen.
  destruct (generateMockTouristData_Normal _ _ _ _ Hgen)
    as (l & Hl & Hlen & -> & _).
  exists (locationsOf city l 0 w2), (advance_by (List.length l) w2).
  split.
  - unfold generateMockTouristData. rewrite Hl.
    apply Array_map_mockLocation.
  - apply drawn_fields_components. apply locationsOf_same_draws.
    apply (same_draws_le _ 30); [lia|exact Hsame].
Qed.

Lemma mock_data_deterministic_witness :
  same_draws 30 zeroWorld laterZeroWorld /\
  generateMockTouristData "Delhi" zeroWorld
  = (Normal (locationsOf "Delhi" delhiAnchors 0 zeroWorld), advance_by 5 zeroWorld) /\
  exists locs2 w2',
    generateMockTouristData "Delhi" laterZeroWorld = (Normal locs2, w2') /\
    map count (locationsOf "Delhi" delhiAnchors 0 zeroWorld) = map count locs2.
Proof.
  split; [exact same_draws_zeroWorld_later|].
  split; [exact (generateMockTouristData_Delhi zeroWorld)|].
  destruct (mock_data_deterministic "Delhi" zeroWorld laterZeroWorld _ _
              same_draws_zeroWorld_later (generateMockTouristData_Delhi zeroWorld))
    as (locs2 & w2' & Hgen & _ & Hcount & _).
  exists locs2, w2'. split; assumption.
Defined.

(* ------------------------------------------------------------------ *)
(** ** Badge label against marker colour *)

(** C9: getSafetyLevel and getSafetyColor cut at the same thresholds: for
    every score the label is 'Safe' exactly when the colour is
    '#10b981', 'Moderate' exactly when '#fbbf24', 'Caution' exactly when
    '#f97316' and 'High Risk' exactly when '#ef4444'. *)
Theorem level_and_color_same_band (score : number) :
  (getSafetyLevel score = "Safe" <-> getSafetyColor score = "#10b981") /\
  (getSafetyLevel score = "Moderate" <-> getSafetyColor score = "#fbbf24") /\
  (getSafetyLevel score = "Caution" <-> getSafetyColor score = "#f97316") /\
  (getSafetyLevel score = "High Risk" <-> getSafetyColor score = "#ef4444").
Proof.
  unfold getSafetyLevel, getSafetyColor.
  destruct (js_ge score 8); [|destruct (js_ge score 6); [|destruct (js_ge score 4)]];
    repeat split; intros H; solve [reflexivity | discriminate H].
Qed.

Lemma level_and_color_same_band_witness :
  getSafetyLevel 7 = "Moderate" /\ getSafetyColor 7 = "#fbbf24".
Proof.
  assert (Hlevel : getSafetyLevel 7 = "Moderate").
  { unfold getSafetyLevel. rewrite !js_ge_IZR. reflexivity. }
  split; [exact Hlevel|].
  destruct (level_and_color_same_band 7) as (_ & [Hto _] & _).
  exact (Hto Hlevel).
Defined.

(* ================================================================== *)
(** * Further properties of the component *)

(* ------------------------------------------------------------------ *)
(** ** Which names resolve *)

Lemma known_not_inherited city : known_city city -> is_inherited city = false.
Proof. intros [-> | [-> | ->]]; reflexivity. Qed.

Lemma positions_inherited city :
  is_inherited city = true ->
  or_else (get basePositions city) (get basePositions "Delhi") = inherited city.
Proof.
  intros Hin.
  destruct (positions_cases city) as [(l & Hl & _)|(_ & _ & H)]; [|exact H].
  unfold get in Hl.
  assert (Hk : ~ known_city city).
  { intros Hk. rewrite (known_not_inherited city Hk) in Hin. discriminate. }
  rewrite (own_basePositions_unknown city Hk), Hin in Hl. discriminate.
Qed.

Lemma positions_resolved city :
  is_inherited city = false ->
  exists l, or_else (get basePositions city) (get basePositions "Delhi") = array l
            /\ (List.length l = 3 \/ List.length l = 5)%nat.
Proof.
  intros Hin.
  destruct (positions_cases city) as [H|(_ & H & _)]; [exact H|congruence].
Qed.

Lemma generateMockTouristData_inherited city w :
  is_inherited city = true ->
  generateMockTouristData city w
  = (Throw (TypeError "positions.map is not a function"), w).
Proof.
  intros Hin. unfold generateMockTouristData.
  rewrite (positions_inherited city Hin). reflexivity.
Qed.

Lemma generateMockTouristData_resolved city w :
  is_inherited city = false ->
  exists l,
    or_else (get basePositions city) (get basePositions "Delhi") = array l
    /\ (List.length l = 3 \/ List.length l = 5)%nat
    /\ generateMockTouristData city w
       = (Normal (locationsOf city l 0 w), advance_by (List.length l) w).
Proof.
  intros Hin. destruct (positions_resolved city Hin) as (l & Hl & Hlen).
  exists l. split; [exact Hl|]. split; [exact Hlen|].
  unfold generateMockTouristData. rewrite Hl. apply Array_map_mockLocation.
Qed.

Lemma zones_resolved city :
  is_inherited city = false ->
  exists zs, generateMockSafetyZones city = array zs
             /\ (List.length zs = 2 \/ List.length zs = 3)%nat.
Proof.
  intros Hin.
  destruct (zones_cases city) as [(zs & Hz & Hlen & _)|(_ & H & _)];
    [eauto|congruence].
Qed.

Lemma live_not_falls_back data :
  ~ falls_back (FetchResolves (mkResponse true (JsonResolves data))).
Proof. cbn. intros [H|[e H]]; discriminate. Qed.

(** Every run takes one of three courses. *)
Lemma fetchTouristData_cases upstream city s :
  (exists data,
      upstream = FetchResolves (mkResponse true (JsonResolves data))
      /\ fetchTouristData upstream city s
         = (Normal tt, {| ui := liveState data (ui s); world := world s |}))
  \/ (falls_back upstream /\ is_inherited city = false
      /\ exists locs w',
           generateMockTouristData city (world s) = (Normal locs, w')
           /\ fetchTouristData upstream city s
              = (Normal tt, {| ui := mockState city locs (ui s); world := w' |}))
  \/ (falls_back upstream /\ is_inherited city = true
      /\ fetchTouristData upstream city s
         = (Normal tt, {| ui := failedState (ui s); world := world s |})).
Proof.
  destruct (falls_back_or_live upstream) as [Hfb|[data ->]].
  - destruct (is_inherited city) eqn:Hin.
    + right. right. split; [exact Hfb|]. split; [reflexivity|].
      apply (fetchTouristData_fallback_Throw upstream city s
               (TypeError "positions.map is not a function") (world s) Hfb).
      apply generateMockTouristData_inherited. exact Hin.
    + right. left. split; [exact Hfb|]. split; [reflexivity|].
      destruct (generateMockTouristData_resolved city (world s) Hin)
        as (l & _ & _ & Hgen).
      eexists. eexists. split; [exact Hgen|].
      apply fetchTouristData_fallback_Normal; [exact Hfb|exact Hgen].
  - left. exists data. split; [reflexivity|]. apply fetchTouristData_live.
Qed.

(* ------------------------------------------------------------------ *)
(** ** What a run of fetchTouristData leaves behind *)

(** X1: whatever the upstream answers and whatever the city name is, a
    call of fetchTouristData completes normally, switches [loading] off
    again and leaves the selected location as it was. *)
Theorem fetchTouristData_settles upstream city s :
  exists s',
    fetchTouristData upstream city s = (Normal tt, s')
    /\ loading (ui s') = false
    /\ selectedLocation (ui s') = selectedLocation (ui s).
Proof.
  destruct (fetchTouristData_cases upstream city s)
    as [(data & _ & ->)|[(_ & _ & locs & w' & _ & ->)|(_ & _ & ->)]];
    eexists; (split; [reflexivity|]); split; reflexivity.
Qed.

(** X2: after a run the error state is either clear or holds the one
    fixed message, and it holds the message exactly when the run went
    to the mock data and the city name is one that Object.prototype
    defines; an earlier error never survives a run. *)
Theorem error_state_after_run upstream city s :
  (error (ui (snd (fetchTouristData upstream city s))) = Some errorMessage
   <-> falls_back upstream /\ is_inherited city = true)
  /\ (error (ui (snd (fetchTouristData upstream city s))) = None
      <-> ~ (falls_back upstream /\ is_inherited city = true)).
Proof.
  destruct (fetchTouristData_cases upstream city s)
    as [(data & -> & ->)|[(Hfb & Hin & locs & w' & _ & ->)|(Hfb & Hin & ->)]];
    cbn [snd ui error liveState mockState failedState].
  - pose proof (live_not_falls_back data) as Hlive.
    split; split; try discriminate; try tauto.
  - split; split; try discriminate; try tauto.
    + intros [_ H]. congruence.
    + intros _ [_ H]. congruence.
  - split; split; try discriminate; try tauto.
Qed.

Lemma error_state_after_run_witness :
  error (ui (snd (fetchTouristData notFoundResponse "toString"
                    {| ui := initialState; world := zeroWorld |})))
  = Some errorMessage
  /\ error (ui (snd (fetchTouristData notFoundResponse "Agra"
                       {| ui := failedState initialState; world := zeroWorld |})))
     = None.
Proof.
  split.
  - apply (proj2 (proj1 (error_state_after_run notFoundResponse "toString"
                           {| ui := initialState; world := zeroWorld |}))).
    split; [left; reflexivity|reflexivity].
  - apply (proj2 (proj2 (error_state_after_run notFoundResponse "Agra"
                           {| ui := failedState initialState; world := zeroWorld |}))).
    intros [_ H]. discriminate H.
Defined.

(** X3: when a run ends in the error state, nothing else is lost: the
    locations, zones and totals shown before the run are still in place,
    and no random draw or clock reading has been consumed. *)
Theorem failed_run_keeps_previous_data upstream city s :
  falls_back upstream -> is_inherited city = true ->
  fetchTouristData upstream city s
  = (Normal tt, {| ui := failedState (ui s); world := world s |})
  /\ touristLocations (failedState (ui s)) = touristLocations (ui s)
  /\ safetyZones (failedState (ui s)) = safetyZones (ui s)
  /\ totalTourists (failedState (ui s)) = totalTourists (ui s)
  /\ averageSafetyScore (failedState (ui s)) = averageSafetyScore (ui s).
Proof.
  intros Hfb Hin. split; [|repeat split].
  apply (fetchTouristData_fallback_Throw upstream city s
           (TypeError "positions.map is not a function") (world s) Hfb).
  apply generateMockTouristData_inherited. exact Hin.
Qed.

Lemma failed_run_keeps_previous_data_witness :
  falls_back unreadableResponse /\ is_inherited "valueOf" = true /\
  fetchTouristData unreadableResponse "valueOf"
    {| ui := twoLocationState; world := halfWorld |}
  = (Normal tt, {| ui := failedState twoLocationState; world := halfWorld |}).
Proof.
  assert (Hfb : falls_back unreadableResponse)
    by (right; eexists; reflexivity).
  split; [exact Hfb|]. split; [reflexivity|].
  exact (proj1 (failed_run_keeps_previous_data unreadableResponse "valueOf"
                  {| ui := twoLocationState; world := halfWorld |} Hfb eq_refl)).
Defined.

(** X4: a readable ok response wins over everything else: its four
    fields are installed whatever the city name is, the error is clear,
    and the synthesizer is not consulted -- no draw and no clock reading
    is consumed. *)
Theorem live_answer_installed data city s :
  exists st',
    fetchTouristData (FetchResolves (mkResponse true (JsonResolves data))) city s
    = (Normal tt, {| ui := st'; world := world s |})
    /\ touristLocations st' = tourist_locations data
    /\ safetyZones st' = array (safety_zones data)
    /\ totalTourists st' = total_tourists data
    /\ averageSafetyScore st' = average_safety_score data
    /\ error st' = None.
Proof.
  exists (liveState data (ui s)).
  split; [apply fetchTouristData_live|]. repeat split.
Qed.

(** X5: for every city name that Object.prototype does not define, each
    way of not getting data -- a rejected fetch, a non-ok response, an ok
    response whose body cannot be read -- ends with the synthesized
    batch of three or five locations and the two or three zones of the
    table installed, and with the error clear. *)
Theorem fallback_installs_mock_data upstream city s :
  falls_back upstream -> is_inherited city = false ->
  exists locs zs w',
    generateMockTouristData city (world s) = (Normal locs, w')
    /\ generateMockSafetyZones city = array zs
    /\ fetchTouristData upstream city s
       = (Normal tt, {| ui := mockState city locs (ui s); world := w' |})
    /\ touristLocations (mockState city locs (ui s)) = locs
    /\ safetyZones (mockState city locs (ui s)) = array zs
    /\ error (mockState city locs (ui s)) = None
    /\ (List.length locs = 3 \/ List.length locs = 5)%nat
    /\ (List.length zs = 2 \/ List.length zs = 3)%nat.
Proof.
  intros Hfb Hin.
  destruct (generateMockTouristData_resolved city (world s) Hin)
    as (l & _ & Hlen & Hgen).
  destruct (zones_resolved city Hin) as (zs & Hz & Hzlen).
  exists (locationsOf city l 0 (world s)), zs, (advance_by (List.length l) (world s)).
  split; [exact Hgen|]. split; [exact Hz|].
  split; [apply fetchTouristData_fallback_Normal; assumption|].
  split; [reflexivity|]. split; [exact Hz|]. split; [reflexivity|].
  split; [rewrite locationsOf_length; exact Hlen|exact Hzlen].
Qed.

Lemma fallback_installs_mock_data_witness :
  falls_back unreadableResponse /\ is_inherited "Mumbai" = false /\
  exists locs zs w',
    generateMockTouristData "Mumbai" zeroWorld = (Normal locs, w')
    /\ generateMockSafetyZones "Mumbai" = array zs
    /\ fetchTouristData unreadableResponse "Mumbai"
         {| ui := initialState; world := zeroWorld |}
       = (Normal tt, {| ui := mockState "Mumbai" locs initialState; world := w' |})
    /\ (List.length locs = 3 \/ List.length locs = 5)%nat
    /\ (List.length zs = 2 \/ List.length zs = 3)%nat.
Proof.
  assert (Hfb : falls_back unreadableResponse)
    by (right; eexists; reflexivity).
  split; [exact Hfb|]. split; [reflexivity|].
  destruct (fallback_installs_mock_data unreadableResponse "Mumbai"
              {| ui := initialState; world := zeroWorld |} Hfb eq_refl)
    as (locs & zs & w' & Hgen & Hz & Hrun & _ & _ & _ & Hl & Hzl).
  exists locs, zs, w'. repeat split; assumption.
Defined.

(* ------------------------------------------------------------------ *)
(** ** The two tables side by side *)

(** Both lookups go the same way: each city gets the anchors and the
    zones of the same table entry, or the same inherited member. *)
Lemma tables_cases city :
  (or_else (get basePositions city) (get basePositions "Delhi") = array delhiAnchors
   /\ generateMockSafetyZones city = array delhiZones)
  \/ (or_else (get basePositions city) (get basePositions "Delhi") = array agraAnchors
      /\ generateMockSafetyZones city = array agraZones)
  \/ (or_else (get basePositions city) (get basePositions "Delhi") = array jaipurAnchors
      /\ generateMockSafetyZones city = array jaipurZones)
  \/ (is_inherited city = true
      /\ or_else (get basePositions city) (get basePositions "Delhi") = inherited city
      /\ generateMockSafetyZones city = inherited city).
Proof.
  unfold generateMockSafetyZones, get.
  cbn [own_property basePositions baseZones].
  destruct (String.eqb "Delhi" city); [left; split; reflexivity|].
  destruct (String.eqb "Agra" city); [right; left; split; reflexivity|].
  destruct (String.eqb "Jaipur" city); [right; right; left; split; reflexivity|].
  destruct (is_inherited city).
  - right. right. right. repeat split.
  - left. split; reflexivity.
Qed.

Lemma generateMockTouristData_with city w locs w' anchors :
  or_else (get basePositions city) (get basePositions "Delhi") = array anchors ->
  generateMockTouristData city w = (Normal locs, w') ->
  locs = locationsOf city anchors 0 w /\ w' = advance_by (List.length anchors) w.
Proof.
  intros Hl Hgen. unfold generateMockTouristData in Hgen.
  rewrite Hl, Array_map_mockLocation in Hgen.
  inversion Hgen; subst. split; reflexivity.
Qed.

(** C7: wherever generateMockSafetyZones is called -- its one call
    site, in fetchTouristData, comes right after a
    generateMockTouristData(cityName) that returned normally -- it
    returns between 2 and 3 safety zones, for known and unknown city
    names alike. *)
Theorem zones_count_at_call_site city w locs w' :
  generateMockTouristData city w = (Normal locs, w') ->
  exists zs,
    generateMockSafetyZones city = array zs
    /\ (2 <= List.length zs <= 3)%nat.
Proof.
  intros Hgen.
  destruct (tables_cases city)
    as [[_ Hz]|[[_ Hz]|[[_ Hz]|(Hin & _ & _)]]].
  - exists delhiZones. split; [exact Hz|cbn; lia].
  - exists agraZones. split; [exact Hz|cbn; lia].
  - exists jaipurZones. split; [exact Hz|cbn; lia].
  - rewrite (generateMockTouristData_inherited city w Hin) in Hgen.
    discriminate.
Qed.

Lemma zones_count_at_call_site_witness :
  exists locs w' zs,
    generateMockTouristData "Mumbai" zeroWorld = (Normal locs, w')
    /\ generateMockSafetyZones "Mumbai" = array zs
    /\ (2 <= List.length zs <= 3)%nat.
Proof.
  destruct (generateMockTouristData_resolved "Mumbai" zeroWorld eq_refl)
    as (l & _ & _ & Hgen).
  destruct (zones_count_at_call_site "Mumbai" zeroWorld _ _ Hgen)
    as (zs & Hz & Hlen).
  eexists. eexists. exists zs. split; [exact Hgen|]. split; assumption.
Defined.

(** X10: the two generators resolve a city name together -- the
    synthesizer returns a batch exactly when the zone generator returns
    an array -- and in matching sizes: five locations go with three
    zones, three locations with two. *)
Theorem generators_resolve_together city w :
  ((exists locs w', generateMockTouristData city w = (Normal locs, w'))
   <-> (exists zs, generateMockSafetyZones city = array zs))
  /\ (forall locs w' zs,
        generateMockTouristData city w = (Normal locs, w') ->
        generateMockSafetyZones city = array zs ->
        (List.length locs = 5 /\ List.length zs = 3)%nat
        \/ (List.length locs = 3 /\ List.length zs = 2)%nat).
Proof.
  destruct (tables_cases city)
    as [[Hp Hz]|[[Hp Hz]|[[Hp Hz]|(Hin & Hp & Hz)]]].
  1-3: split;
    [ split; intros _;
      [ eexists; exact Hz
      | eexists; eexists; unfold generateMockTouristData; rewrite Hp;
        apply Array_map_mockLocation ]
    | intros locs w' zs Hgen Hzs;
      destruct (generateMockTouristData_with _ _ _ _ _ Hp Hgen) as [-> _];
      rewrite Hz in Hzs; inversion Hzs; subst zs;
      rewrite locationsOf_length; cbn; auto ].
  split.
  - split.
    + intros (locs & w' & Hgen).
      rewrite (generateMockTouristData_inherited city w Hin) in Hgen. discriminate.
    + intros (zs & Hzs). rewrite Hz in Hzs. discriminate.
  - intros locs w' zs Hgen _.
    rewrite (generateMockTouristData_inherited city w Hin) in Hgen. discriminate.
Qed.

Lemma generators_resolve_together_witness :
  generateMockTouristData "Agra" zeroWorld
  = (Normal (locationsOf "Agra" agraAnchors 0 zeroWorld), advance_by 3 zeroWorld)
  /\ generateMockSafetyZones "Agra" = array agraZones
  /\ ((List.length (locationsOf "Agra" agraAnchors 0 zeroWorld) = 5
       /\ List.length agraZones = 3)%nat
      \/ (List.length (locationsOf "Agra" agraAnchors 0 zeroWorld) = 3
          /\ List.length agraZones = 2)%nat).
Proof.
  split; [exact (generateMockTouristData_Agra zeroWorld)|].
  split; [exact (proj1 (proj2 generateMockSafetyZones_known))|].
  exact (proj2 (generators_resolve_together "Agra" zeroWorld) _ _ _
           (generateMockTouristData_Agra zeroWorld)
           (proj1 (proj2 generateMockSafetyZones_known))).
Defined.

(* ------------------------------------------------------------------ *)
(** ** What every synthesized location looks like *)

Lemma mock_locations_Forall (P : TouristLocation -> Prop) city w locs w' :
  (forall pos index w0, unit_draws w0 -> P (locationOf city pos index w0)) ->
  unit_draws w ->
  generateMockTouristData city w = (Normal locs, w') ->
  Forall P locs.
Proof.
  intros HP Hw Hgen.
  destruct (generateMockTouristData_Normal _ _ _ _ Hgen) as (l & _ & _ & -> & _).
  apply locationsOf_Forall; assumption.
Qed.

(** X7: every location the synthesizer produces has a count that is an
    integer from 10 to 59, a nationality that is defined and is one of
    the five listed, and a group size that is an integer from 1 to 8. *)
Theorem mock_location_fields_in_range city w locs w' :
  unit_draws w ->
  generateMockTouristData city w = (Normal locs, w') ->
  forall loc, In loc locs ->
    (exists c : Z, count loc = IZR c /\ (10 <= c <= 59)%Z)
    /\ (exists n, nationality loc = Some n /\ In n nationalities)
    /\ (exists g : Z, groupSize loc = Some (IZR g) /\ (1 <= g <= 8)%Z).
Proof.
  intros Hw Hgen.
  apply Forall_forall.
  apply (mock_locations_Forall _ city w locs w'); [|exact Hw|exact Hgen].
  intros pos index w0 Hw0. apply locationOf_ranges. exact Hw0.
Qed.

Lemma mock_location_fields_in_range_witness :
  unit_draws halfWorld /\
  generateMockTouristData "Delhi" halfWorld
  = (Normal (locationsOf "Delhi" delhiAnchors 0 halfWorld), advance_by 5 halfWorld) /\
  let loc := locationOf "Delhi" (mkAnchor 28.6139 77.2090 "India Gate") 0 halfWorld in
  (exists c : Z, count loc = IZR c /\ (10 <= c <= 59)%Z)
  /\ (exists n, nationality loc = Some n /\ In n nationalities)
  /\ (exists g : Z, groupSize loc = Some (IZR g) /\ (1 <= g <= 8)%Z).
Proof.
  split; [exact halfWorld_unit|].
  split; [exact (generateMockTouristData_Delhi halfWorld)|].
  apply (mock_location_fields_in_range "Delhi" halfWorld _ _
           halfWorld_unit (generateMockTouristData_Delhi halfWorld)).
  left. reflexivity.
Defined.

(** The jitter of one coordinate. *)
Lemma jitter_bound (r : number) :
  0 <= r < 1 -> -0.005 <= (r - 0.5) * 0.01 < 0.005.
Proof. intros H. lra. Qed.

Lemma locationsOf_Forall2 (P : Anchor -> TouristLocation -> Prop) city :
  (forall pos index w, unit_draws w -> P pos (locationOf city pos index w)) ->
  forall l index w, unit_draws w -> Forall2 P l (locationsOf city l index w).
Proof.
  intros HP l. induction l as [|pos rest IH]; intros index w Hw; cbn [locationsOf].
  - constructor.
  - constructor; [apply HP; exact Hw|].
    apply IH. apply advance_unit_draws. exact Hw.
Qed.

(** X8: the synthesizer yields one location per anchor of the table the
    city resolves to, in table order, each within 0.005 degrees of its
    anchor in latitude and in longitude. *)
Theorem mock_positions_near_anchor city w locs w' :
  unit_draws w ->
  generateMockTouristData city w = (Normal locs, w') ->
  exists anchors,
    or_else (get basePositions city) (get basePositions "Delhi") = array anchors
    /\ Forall2
         (fun a loc =>
            -0.005 <= lat (position loc) - anchor_lat a < 0.005
            /\ -0.005 <= lng (position loc) - anchor_lng a < 0.005)
         anchors locs.
Proof.
  intros Hw Hgen.
  destruct (generateMockTouristData_Normal _ _ _ _ Hgen) as (l & Hl & _ & -> & _).
  exists l. split; [exact Hl|].
  apply locationsOf_Forall2; [|exact Hw].
  intros pos index w0 Hw0. cbn [position locationOf lat lng].
  pose proof (jitter_bound (random w0 0) (Hw0 0%nat)).
  pose proof (jitter_bound (random w0 1) (Hw0 1%nat)).
  split; lra.
Qed.

Lemma mock_positions_near_anchor_witness :
  unit_draws zeroWorld /\
  generateMockTouristData "Jaipur" zeroWorld
  = (Normal (locationsOf "Jaipur" jaipurAnchors 0 zeroWorld), advance_by 3 zeroWorld) /\
  exists anchors,
    or_else (get basePositions "Jaipur") (get basePositions "Delhi") = array anchors
    /\ Forall2
         (fun a loc =>
            -0.005 <= lat (position loc) - anchor_lat a < 0.005
            /\ -0.005 <= lng (position loc) - anchor_lng a < 0.005)
         anchors (locationsOf "Jaipur" jaipurAnchors 0 zeroWorld).
Proof.
  split; [exact zeroWorld_unit|].
  split; [exact (generateMockTouristData_Jaipur zeroWorld)|].
  exact (mock_positions_near_anchor "Jaipur" zeroWorld _ _
           zeroWorld_unit (generateMockTouristData_Jaipur zeroWorld)).
Defined.

(* ------------------------------------------------------------------ *)
(** ** Ids and keys *)

Lemma append_cancel_l (p a b : string) : (p ++ a = p ++ b)%string -> a = b.
Proof.
  induction p as [|c p IH]; cbn; intros H; [exact H|].
  injection H as H. apply IH. exact H.
Qed.

Lemma string_of_index_inj i j : string_of_index i = string_of_index j -> i = j.
Proof.
  unfold string_of_index. intros H.
  apply (f_equal NilEmpty.uint_of_string) in H.
  rewrite !NilEmpty.usu in H. injection H as H.
  apply (f_equal Nat.of_uint) in H.
  rewrite !DecimalNat.Unsigned.of_to in H. exact H.
Qed.

Lemma mockId_inj city i j : mockId city i = mockId city j -> i = j.
Proof.
  unfold mockId. intros H.
  apply append_cancel_l, append_cancel_l, append_cancel_l in H.
  apply string_of_index_inj. exact H.
Qed.

Lemma locationsOf_ids city l : forall index w,
  map id (locationsOf city l index w) = map (mockId city) (seq index (List.length l)).
Proof.
  induction l as [|pos rest IH]; intros index w; cbn [locationsOf map List.length seq].
  - reflexivity.
  - rewrite IH. reflexivity.
Qed.

(** X9: the ids of a synthesized batch are "tourist-<city>-0",
    "tourist-<city>-1", ... in order, and no two locations of a batch
    share an id (they serve as keys of the rendered list). *)
Theorem mock_ids_distinct city w locs w' :
  generateMockTouristData city w = (Normal locs, w') ->
  map id locs = map (mockId city) (seq 0 (List.length locs))
  /\ NoDup (map id locs).
Proof.
  intros Hgen.
  destruct (generateMockTouristData_Normal _ _ _ _ Hgen) as (l & _ & _ & -> & _).
  rewrite locationsOf_length, locationsOf_ids. split; [reflexivity|].
  generalize (seq_NoDup (List.length l) 0). generalize (seq 0 (List.length l)).
  intros ns Hns. induction Hns as [|n ns Hn Hns IH]; cbn [map]; constructor.
  - rewrite in_map_iff. intros (m & Hm & Hin).
    apply mockId_inj in Hm. subst m. contradiction.
  - exact IH.
Qed.

Lemma mock_ids_distinct_witness :
  generateMockTouristData "Agra" halfWorld
  = (Normal (locationsOf "Agra" agraAnchors 0 halfWorld), advance_by 3 halfWorld) /\
  NoDup (map id (locationsOf "Agra" agraAnchors 0 halfWorld)).
Proof.
  split; [exact (generateMockTouristData_Agra halfWorld)|].
  exact (proj2 (mock_ids_distinct "Agra" halfWorld _ _
                  (generateMockTouristData_Agra halfWorld))).
Defined.

(* ------------------------------------------------------------------ *)
(** ** Use of the environment *)

Lemma clock_advance_by n : forall w k,
  clock (advance_by n w) k = clock w (n + k).
Proof.
  induction n as [|m IH]; intros w k.
  - reflexivity.
  - cbn [advance_by]. rewrite IH. reflexivity.
Qed.

(** X11: a call that yields n locations consumes exactly 6 n results of
    Math.random() and n clock readings: what the environment offers
    next is what it would have offered at those offsets before. *)
Theorem synthesizer_consumes_six_draws_per_location city w locs w' :
  generateMockTouristData city w = (Normal locs, w') ->
  forall k,
    random w' k = random w (6 * List.length locs + k)
    /\ clock w' k = clock w (List.length locs + k).
Proof.
  intros Hgen k.
  destruct (generateMockTouristData_Normal _ _ _ _ Hgen) as (l & _ & _ & -> & ->).
  rewrite locationsOf_length. split.
  - apply random_advance_by.
  - apply clock_advance_by.
Qed.

Lemma synthesizer_consumes_six_draws_per_location_witness :
  generateMockTouristData "Delhi" steppedWorld
  = (Normal (locationsOf "Delhi" delhiAnchors 0 steppedWorld),
     advance_by 5 steppedWorld) /\
  random (advance_by 5 steppedWorld) 0
  = random steppedWorld
      (6 * List.length (locationsOf "Delhi" delhiAnchors 0 steppedWorld) + 0).
Proof.
  split; [exact (generateMockTouristData_Delhi steppedWorld)|].
  exact (proj1 (synthesizer_consumes_six_draws_per_location "Delhi" steppedWorld
                  _ _ (generateMockTouristData_Delhi steppedWorld) 0%nat)).
Defined.

(* ------------------------------------------------------------------ *)
(** ** Totals shown after a fallback *)

Lemma sum_of_upper_bound (c : number) (l : list number) :
  (forall x, In x l -> x <= c) -> sum_of l <= c * INR (List.length l).
Proof.
  induction l as [|x rest IH]; intros H.
  - cbn. lra.
  - cbn [sum_of fold_right]. change (fold_right Rplus 0 rest) with (sum_of rest).
    cbn [List.length]. rewrite S_INR.
    assert (x <= c) by (apply H; left; reflexivity).
    assert (sum_of rest <= c * INR (List.length rest))
      by (apply IH; intros y Hy; apply H; right; exact Hy).
    lra.
Qed.

Lemma mean_of_upper_bound (c : number) (l : list number) :
  l <> [] -> (forall x, In x l -> x <= c) -> mean_of l <= c.
Proof.
  intros Hne H. unfold mean_of.
  assert (Hlen : 0 < INR (List.length l)).
  { apply lt_0_INR. destruct l; [contradiction|cbn; lia]. }
  pose proof (sum_of_upper_bound c l H) as Hsum.
  apply Rmult_le_reg_r with (r := INR (List.length l)); [exact Hlen|].
  unfold Rdiv. rewrite Rmult_assoc, Rinv_l; lra.
Qed.

Lemma sum_of_integral (l : list number) :
  (forall x, In x l -> exists z : Z, x = IZR z) -> exists z : Z, sum_of l = IZR z.
Proof.
  induction l as [|x rest IH]; intros H.
  - exists 0%Z. reflexivity.
  - destruct (H x (or_introl eq_refl)) as (a & ->).
    destruct IH as (b & Hb); [intros y Hy; apply H; right; exact Hy|].
    exists (a + b)%Z. cbn [sum_of fold_right].
    change (fold_right Rplus 0 rest) with (sum_of rest).
    rewrite Hb, plus_IZR. reflexivity.
Qed.

(** X6: after a fallback to mock data the average safety score shown
    lies between 6 and 9, so its band is 'Safe' or 'Moderate', and the
    total shown is a whole number between 30 and 295 (between 10 and 59
    tourists per location). *)
Theorem mock_totals_in_range upstream city s :
  falls_back upstream -> is_inherited city = false -> unit_draws (world s) ->
  let st' := ui (snd (fetchTouristData upstream city s)) in
  6 <= averageSafetyScore st' <= 9
  /\ (getSafetyLevel (averageSafetyScore st') = "Safe"
      \/ getSafetyLevel (averageSafetyScore st') = "Moderate")
  /\ 10 * INR (List.length (touristLocations st')) <= totalTourists st'
     <= 59 * INR (List.length (touristLocations st'))
  /\ 30 <= totalTourists st' <= 295
  /\ exists t : Z, totalTourists st' = IZR t.
Proof.
  intros Hfb Hin Hw.
  destruct (generateMockTouristData_resolved city (world s) Hin)
    as (l & _ & Hlen & Hgen).
  rewrite (fetchTouristData_fallback_Normal _ _ _ _ _ Hfb Hgen).
  cbn [snd ui mockState averageSafetyScore totalTourists touristLocations].
  set (locs := locationsOf city l 0 (world s)) in *.
  assert (Hne : locs <> [])
    by (eapply generateMockTouristData_nonempty; exact Hgen).
  assert (Hscores : forall x, In x (map safetyScore locs) -> 6 <= x <= 9).
  { intros x Hx. apply in_map_iff in Hx. destruct Hx as (loc & <- & Hloc).
    destruct (mock_safetyScore_6_to_9_core city (world s) _ _ Hw Hgen loc Hloc)
      as (z & -> & Hz).
    split; apply IZR_le; lia. }
  pose proof (Forall_forall (fun loc : TouristLocation =>
      (exists c : Z, count loc = IZR c /\ (10 <= c <= 59)%Z)) locs) as [Hcnt _].
  specialize (Hcnt (mock_locations_Forall _ city (world s) locs _
    (fun pos index w0 Hw0 => proj1 (locationOf_ranges city pos index w0 Hw0))
    Hw Hgen)).
  assert (Hcounts : forall x, In x (map count locs) -> 10 <= x <= 59).
  { intros x Hx. apply in_map_iff in Hx. destruct Hx as (loc & <- & Hloc).
    destruct (Hcnt loc Hloc) as (c & -> & Hc). split; apply IZR_le; lia. }
  assert (Hmne : map safetyScore locs <> [])
    by (destruct locs; [contradiction|discriminate]).
  rewrite !reduce_plus, !Rplus_0_l.
  assert (Havg : 6 <= sum_of (map safetyScore locs) / INR (List.length locs) <= 9).
  { rewrite <- (length_map safetyScore locs). split.
    - apply (mean_of_lower_bound 6 _ Hmne). intros x Hx. apply Hscores, Hx.
    - apply (mean_of_upper_bound 9 _ Hmne). intros x Hx. apply Hscores, Hx. }
  assert (Hlo := sum_of_lower_bound 10 (map count locs)
                   (fun x Hx => proj1 (Hcounts x Hx))).
  assert (Hhi := sum_of_upper_bound 59 (map count locs)
                   (fun x Hx => proj2 (Hcounts x Hx))).
  rewrite length_map in Hlo, Hhi.
  split; [exact Havg|]. split.
  { unfold getSafetyLevel, js_ge.
    destruct (Rge_dec _ 8); [left; reflexivity|].
    destruct (Rge_dec _ 6); [right; reflexivity|lra]. }
  split; [split; assumption|]. split.
  { assert (Hn : INR (List.length locs) = 3 \/ INR (List.length locs) = 5).
    { unfold locs. rewrite locationsOf_length.
      destruct Hlen as [-> | ->]; cbn; [left|right]; lra. }
    destruct Hn as [Hn|Hn]; rewrite Hn in Hlo, Hhi; lra. }
  apply sum_of_integral. intros x Hx.
  apply in_map_iff in Hx. destruct Hx as (loc & <- & Hloc).
  destruct (Hcnt loc Hloc) as (c & -> & _). eexists. reflexivity.
Qed.

Lemma mock_totals_in_range_witness :
  falls_back notFoundResponse /\ is_inherited "Goa" = false
  /\ unit_draws halfWorld
  /\ 6 <= averageSafetyScore
            (ui (snd (fetchTouristData notFoundResponse "Goa"
                        {| ui := initialState; world := halfWorld |}))) <= 9.
Proof.
  assert (Hfb : falls_back notFoundResponse) by (left; reflexivity).
  split; [exact Hfb|]. split; [reflexivity|]. split; [exact halfWorld_unit|].
  exact (proj1 (mock_totals_in_range notFoundResponse "Goa"
                  {| ui := initialState; world := halfWorld |}
                  Hfb eq_refl halfWorld_unit)).
Defined.

(* ------------------------------------------------------------------ *)
(** ** More on the click handler *)

(** X13: only the latest click counts: a click after an earlier click
    leaves the state the later click alone would have left (clicking
    twice at one place changes nothing the second time). *)
Theorem last_click_wins first_click second_click st :
  handleMapClick second_click (handleMapClick first_click st)
  = handleMapClick second_click st.
Proof.
  unfold handleMapClick, nearestLocation.
  destruct (touristLocations st) as [|first rest] eqn:Hlocs;
    cbn [nth_error]; [rewrite Hlocs; reflexivity|].
  cbn [touristLocations setSelectedLocation]. rewrite Hlocs.
  reflexivity.
Qed.

(* ------------------------------------------------------------------ *)
(** ** Zones against anchors, locations and colours *)

Lemma Forall2_In_l {A B} (P : A -> B -> Prop) l1 l2 a :
  Forall2 P l1 l2 -> In a l1 -> exists b, In b l2 /\ P a b.
Proof.
  induction 1 as [|x y l1 l2 Hxy _ IH]; intros Hin; [contradiction|].
  destruct Hin as [<-|Hin].
  - exists y. split; [left; reflexivity|exact Hxy].
  - destruct (IH Hin) as (b & Hb & HP). exists b. split; [right; exact Hb|exact HP].
Qed.

(** Every zone of a table is centred on an anchor of the same entry. *)
Lemma zone_centre_is_anchor city zs anchors z :
  generateMockSafetyZones city = array zs ->
  or_else (get basePositions city) (get basePositions "Delhi") = array anchors ->
  In z zs ->
  exists a, In a anchors
            /\ zone_position z = {| lat := anchor_lat a; lng := anchor_lng a |}.
Proof.
  intros Hz Hp Hin.
  destruct (tables_cases city)
    as [[Hp' Hz']|[[Hp' Hz']|[[Hp' Hz']|(_ & Hp' & _)]]];
    rewrite Hp' in Hp; try discriminate Hp;
    rewrite Hz' in Hz; inversion Hp; inversion Hz; subst anchors zs.
  - unfold delhiZones in Hin. cbn [In] in Hin.
    destruct Hin as [<- | [<- | [<- | []]]].
    + exists (mkAnchor 28.6139 77.2090 "India Gate").
      split; [unfold delhiAnchors; cbn [In]; auto 10|reflexivity].
    + exists (mkAnchor 28.6562 77.2410 "Red Fort").
      split; [unfold delhiAnchors; cbn [In]; auto 10|reflexivity].
    + exists (mkAnchor 28.6129 77.2295 "Connaught Place").
      split; [unfold delhiAnchors; cbn [In]; auto 10|reflexivity].
  - unfold agraZones in Hin. cbn [In] in Hin.
    destruct Hin as [<- | [<- | []]].
    + exists (mkAnchor 27.1751 78.0421 "Taj Mahal").
      split; [unfold agraAnchors; cbn [In]; auto 10|reflexivity].
    + exists (mkAnchor 27.1833 78.0167 "Agra Fort").
      split; [unfold agraAnchors; cbn [In]; auto 10|reflexivity].
  - unfold jaipurZones in Hin. cbn [In] in Hin.
    destruct Hin as [<- | [<- | []]].
    + exists (mkAnchor 26.9124 75.7873 "City Palace").
      split; [unfold jaipurAnchors; cbn [In]; auto 10|reflexivity].
    + exists (mkAnchor 26.9859 75.8513 "Amber Fort").
      split; [unfold jaipurAnchors; cbn [In]; auto 10|reflexivity].
Qed.

(** X17: every zone the zone generator returns for a city has, in each
    batch the synthesizer produces for the same city, a tourist location
    within 0.005 degrees of the zone's centre in latitude and in
    longitude. *)
Theorem every_zone_has_a_location_at_its_centre city w locs w' zs :
  unit_draws w ->
  generateMockTouristData city w = (Normal locs, w') ->
  generateMockSafetyZones city = array zs ->
  forall z, In z zs ->
    exists loc,
      In loc locs
      /\ -0.005 <= lat (position loc) - lat (zone_position z) < 0.005
      /\ -0.005 <= lng (position loc) - lng (zone_position z) < 0.005.
Proof.
  intros Hw Hgen Hz z Hin.
  destruct (generateMockTouristData_Normal _ _ _ _ Hgen) as (l & Hl & _ & -> & _).
  destruct (zone_centre_is_anchor city zs l z Hz Hl Hin) as (a & Ha & ->).
  cbn [lat lng].
  apply (Forall2_In_l
           (fun a loc =>
              -0.005 <= lat (position loc) - anchor_lat a < 0.005
              /\ -0.005 <= lng (position loc) - anchor_lng a < 0.005)
           l (locationsOf city l 0 w) a); [|exact Ha].
  apply locationsOf_Forall2; [|exact Hw].
  intros pos index w0 Hw0. cbn [position locationOf lat lng].
  pose proof (jitter_bound (random w0 0) (Hw0 0%nat)).
  pose proof (jitter_bound (random w0 1) (Hw0 1%nat)).
  split; lra.
Qed.

Lemma every_zone_has_a_location_at_its_centre_witness :
  unit_draws halfWorld /\
  generateMockTouristData "Agra" halfWorld
  = (Normal (locationsOf "Agra" agraAnchors 0 halfWorld), advance_by 3 halfWorld) /\
  generateMockSafetyZones "Agra" = array agraZones /\
  let z := mkSafetyZone "zone-2" "City Center" (mkPosition 27.1833 78.0167)
             2000 medium "#fbbf24" "Moderate safety with good facilities" in
  In z agraZones /\
  exists loc,
    In loc (locationsOf "Agra" agraAnchors 0 halfWorld)
    /\ -0.005 <= lat (position loc) - lat (zone_position z) < 0.005
    /\ -0.005 <= lng (position loc) - lng (zone_position z) < 0.005.
Proof.
  split; [exact halfWorld_unit|].
  split; [exact (generateMockTouristData_Agra halfWorld)|].
  split; [exact (proj1 (proj2 generateMockSafetyZones_known))|].
  intros z.
  assert (Hin : In z agraZones) by (right; left; reflexivity).
  split; [exact Hin|].
  exact (every_zone_has_a_location_at_its_centre "Agra" halfWorld _ _ agraZones
           halfWorld_unit (generateMockTouristData_Agra halfWorld)
           (proj1 (proj2 generateMockSafetyZones_known)) z Hin).
Defined.

Lemma getZoneColor_levels :
  getZoneColor (levelString low) = "#10b981"
  /\ getZoneColor (levelString medium) = "#fbbf24"
  /\ getZoneColor (levelString high) = "#f97316"
  /\ getZoneColor (levelString critical) = "#ef4444".
Proof. repeat split; reflexivity. Qed.

(** X16: for every zone the generator returns, the colour stored in the
    table is the colour the component renders for the zone's level
    (getZoneColor), with one exception: the zone of level high, "Old
    Delhi", stores the colour rendered for critical.  No zone is
    critical. *)
Theorem zone_color_against_level city zs z :
  generateMockSafetyZones city = array zs ->
  In z zs ->
  safetyLevel z <> critical
  /\ ((safetyLevel z <> high
       /\ color z = getZoneColor (levelString (safetyLevel z)))
      \/ (safetyLevel z = high /\ zone_name z = "Old Delhi"
          /\ color z = getZoneColor (levelString critical)
          /\ color z <> getZoneColor (levelString (safetyLevel z)))).
Proof.
  intros Hz Hin.
  destruct getZoneColor_levels as (Hlow & Hmedium & Hhigh & Hcritical).
  destruct (tables_cases city)
    as [[_ Hz']|[[_ Hz']|[[_ Hz']|(_ & _ & Hz')]]];
    rewrite Hz' in Hz; try discriminate Hz; inversion Hz; subst zs.
  - unfold delhiZones in Hin. cbn [In] in Hin.
    destruct Hin as [<- | [<- | [<- | []]]]; cbn [safetyLevel color zone_name];
      rewrite ?Hlow, ?Hmedium, ?Hhigh, ?Hcritical;
      (split; [discriminate|]).
    + left. split; [discriminate|reflexivity].
    + right. repeat split. discriminate.
    + left. split; [discriminate|reflexivity].
  - unfold agraZones in Hin. cbn [In] in Hin.
    destruct Hin as [<- | [<- | []]]; cbn [safetyLevel color zone_name];
      rewrite ?Hlow, ?Hmedium, ?Hhigh, ?Hcritical;
      (split; [discriminate|]); left; (split; [discriminate|reflexivity]).
  - unfold jaipurZones in Hin. cbn [In] in Hin.
    destruct Hin as [<- | [<- | []]]; cbn [safetyLevel color zone_name];
      rewrite ?Hlow, ?Hmedium, ?Hhigh, ?Hcritical;
      (split; [discriminate|]); left; (split; [discriminate|reflexivity]).
Qed.

Lemma zone_color_against_level_witness :
  generateMockSafetyZones "Delhi" = array delhiZones /\
  let z := mkSafetyZone "zone-2" "Old Delhi" (mkPosition 28.6562 77.2410)
             1500 high "#ef4444" "High-risk area with increased monitoring" in
  In z delhiZones /\
  safetyLevel z <> critical.
Proof.
  split; [exact (proj1 generateMockSafetyZones_known)|].
  intros z.
  assert (Hin : In z delhiZones) by (right; left; reflexivity).
  split; [exact Hin|].
  exact (proj1 (zone_color_against_level "Delhi" delhiZones z
                  (proj1 generateMockSafetyZones_known) Hin)).
Defined.

(** X19: the four safety levels are rendered in four different colours,
    every colour a marker can take is the colour of one of the four
    levels, and any other level string falls to the default grey
    '#6b7280', which no marker takes. *)
Theorem zone_and_marker_palette :
  (forall l1 l2 : SafetyLevel,
      getZoneColor (levelString l1) = getZoneColor (levelString l2) -> l1 = l2)
  /\ (forall score, exists level,
        getSafetyColor score = getZoneColor (levelString level))
  /\ (forall s : string,
        (forall level, s <> levelString level) -> getZoneColor s = "#6b7280")
  /\ (forall score, getSafetyColor score <> "#6b7280").
Proof.
  destruct getZoneColor_levels as (Hlow & Hmedium & Hhigh & Hcritical).
  split; [|split; [|split]].
  - intros [] []; rewrite ?Hlow, ?Hmedium, ?Hhigh, ?Hcritical; intros H;
      try reflexivity; discriminate H.
  - intros score. unfold getSafetyColor.
    destruct (js_ge score 8); [exists low; symmetry; exact Hlow|].
    destruct (js_ge score 6); [exists medium; symmetry; exact Hmedium|].
    destruct (js_ge score 4); [exists high; symmetry; exact Hhigh|].
    exists critical; symmetry; exact Hcritical.
  - intros s Hs. unfold getZoneColor.
    destruct (String.eqb_spec s "low") as [E|_]; [exfalso; exact (Hs low E)|].
    destruct (String.eqb_spec s "medium") as [E|_];
      [exfalso; exact (Hs medium E)|].
    destruct (String.eqb_spec s "high") as [E|_]; [exfalso; exact (Hs high E)|].
    destruct (String.eqb_spec s "critical") as [E|_];
      [exfalso; exact (Hs critical E)|].
    reflexivity.
  - intros score. unfold getSafetyColor.
    destruct (js_ge score 8); [discriminate|].
    destruct (js_ge score 6); [discriminate|].
    destruct (js_ge score 4); discriminate.
Qed.

(* ------------------------------------------------------------------ *)
(** ** Refreshing *)

(** X18: unless it ends in the error state, a run overwrites everything
    it shows: started from two states that agree on the selected
    location, in the same environment, it ends in the same state,
    whatever locations, zones, totals, error or loading flag the two
    states held before. *)
Theorem successful_run_forgets_previous_data upstream city s1 s2 :
  world s1 = world s2 ->
  selectedLocation (ui s1) = selectedLocation (ui s2) ->
  ~ (falls_back upstream /\ is_inherited city = true) ->
  fetchTouristData upstream city s1 = fetchTouristData upstream city s2.
Proof.
  intros Hworld Hsel Hok.
  destruct (fetchTouristData_cases upstream city s1)
    as [(data & -> & H1)|[(Hfb & Hin & locs & w' & Hgen & H1)|(Hfb & Hin & _)]].
  - rewrite H1, fetchTouristData_live.
    unfold liveState. rewrite Hsel, Hworld. reflexivity.
  - rewrite H1. rewrite Hworld in Hgen.
    rewrite (fetchTouristData_fallback_Normal _ _ _ _ _ Hfb Hgen).
    unfold mockState. rewrite Hsel. reflexivity.
  - exfalso. apply Hok. split; assumption.
Qed.

Lemma successful_run_forgets_previous_data_witness :
  world {| ui := initialState; world := zeroWorld |}
  = world {| ui := failedState initialState; world := zeroWorld |}
  /\ selectedLocation initialState = selectedLocation (failedState initialState)
  /\ ~ (falls_back notFoundResponse /\ is_inherited "Jaipur" = true)
  /\ fetchTouristData notFoundResponse "Jaipur"
       {| ui := initialState; world := zeroWorld |}
     = fetchTouristData notFoundResponse "Jaipur"
         {| ui := failedState initialState; world := zeroWorld |}.
Proof.
  assert (Hok : ~ (falls_back notFoundResponse /\ is_inherited "Jaipur" = true))
    by (intros [_ H]; discriminate H).
  split; [reflexivity|]. split; [reflexivity|]. split; [exact Hok|].
  exact (successful_run_forgets_previous_data notFoundResponse "Jaipur"
           {| ui := initialState; world := zeroWorld |}
           {| ui := failedState initialState; world := zeroWorld |}
           eq_refl eq_refl Hok).
Defined.

(* ------------------------------------------------------------------ *)
(** ** What the side panel shows after a run *)

(** X20: once a run of fetchTouristData is over the side panel never
    shows the spinner: it shows the fixed error message when the run
    went to the mock data with a city name that Object.prototype
    defines, and the content (totals, locations, zones) in every other
    case, whatever it showed before. *)
Theorem panel_after_run upstream city s :
  let st' := ui (snd (fetchTouristData upstream city s)) in
  sidePanel st' <> Spinner
  /\ (falls_back upstream /\ is_inherited city = true ->
      sidePanel st' = ErrorBox errorMessage)
  /\ (~ (falls_back upstream /\ is_inherited city = true) ->
      sidePanel st' = Content).
Proof.
  destruct (fetchTouristData_cases upstream city s)
    as [(data & -> & ->)|[(Hfb & Hin & locs & w' & _ & ->)|(Hfb & Hin & ->)]];
    cbn [snd ui]; unfold sidePanel;
    cbn [loading error liveState mockState failedState].
  - split; [discriminate|]. split; [|reflexivity].
    intros [H _]. exfalso. exact (live_not_falls_back data H).
  - split; [discriminate|]. split; [|reflexivity].
    intros [_ H]. congruence.
  - split; [discriminate|]. split; [reflexivity|].
    intros H. exfalso. apply H. split; assumption.
Qed.

Lemma panel_after_run_witness :
  (falls_back notFoundResponse /\ is_inherited "hasOwnProperty" = true)
  /\ sidePanel (ui (snd (fetchTouristData notFoundResponse "hasOwnProperty"
                           {| ui := initialState; world := zeroWorld |})))
     = ErrorBox errorMessage.
Proof.
  assert (H : falls_back notFoundResponse /\ is_inherited "hasOwnProperty" = true)
    by (split; [left; reflexivity|reflexivity]).
  split; [exact H|].
  exact (proj1 (proj2 (panel_after_run notFoundResponse "hasOwnProperty"
                         {| ui := initialState; world := zeroWorld |})) H).
Defined.

(* ================================================================== *)
(** * Properties in double arithmetic *)

Module IEEE_facts.
Import Floats.
Import IEEE.
#[local] Open Scope float_scope.
#[local] Set Warnings "-inexact-float".

(* ------------------------------------------------------------------ *)
(** ** The order of doubles *)

Ltac compare_cases :=
  repeat match goal with
    | H : context [Z.compare ?x ?y] |- _ => destruct (Z.compare_spec x y)
    | |- context [Z.compare ?x ?y] => destruct (Z.compare_spec x y)
    | H : context [Pos.compare ?x ?y] |- _ => destruct (Pos.compare_spec x y)
    | |- context [Pos.compare ?x ?y] => destruct (Pos.compare_spec x y)
    end.

Ltac spec_float_cases Hbc :=
  cbn in *; try discriminate;
  repeat match goal with s : bool |- _ => destruct s end;
  cbn in *; try discriminate; try reflexivity;
  try (injection Hbc as <-; congruence);
  change (Pos.compare_cont Eq) with Pos.compare in *;
  compare_cases; cbn in *; subst;
  try discriminate; try reflexivity; try lia;
  try (injection Hbc as <-; congruence).

Lemma SFcompare_le_lt_trans (a b c : spec_float) (r : comparison) :
  SFcompare a b = Some r -> r <> Gt ->
  SFcompare b c = Some Lt ->
  SFcompare a c = Some Lt.
Proof.
  intros Hab Hr Hbc.
  destruct a as [sa|sa| |sa ma ea], b as [sb|sb| |sb mb eb],
           c as [sc|sc| |sc mc ec]; spec_float_cases Hab.
Qed.

Lemma SFcompare_lt_antisym (a b : spec_float) :
  SFcompare a b = Some Lt -> SFcompare b a = Some Gt.
Proof.
  intros Hab.
  destruct a as [sa|sa| |sa ma ea], b as [sb|sb| |sb mb eb];
    spec_float_cases Hab.
Qed.

Lemma ltb_true (x y : float) :
  (x <? y) = true <-> SFcompare (Prim2SF x) (Prim2SF y) = Some Lt.
Proof.
  rewrite ltb_spec. unfold SFltb.
  destruct (SFcompare (Prim2SF x) (Prim2SF y)) as [[| |]|]; split;
    intros H; try discriminate H; reflexivity.
Qed.

Lemma leb_true (x y : float) :
  (x <=? y) = true <->
  exists r, SFcompare (Prim2SF x) (Prim2SF y) = Some r /\ r <> Gt.
Proof.
  rewrite leb_spec. unfold SFleb.
  destruct (SFcompare (Prim2SF x) (Prim2SF y)) as [[| |]|]; split;
    try (intros _; eexists; split; [reflexivity|discriminate]);
    try (intros H; discriminate H);
    try (intros _; reflexivity);
    intros (r & H & Hr); congruence.
Qed.

Lemma ltb_irrefl (x : float) : (x <? x) = false.
Proof.
  destruct (x <? x) eqn:H; [|reflexivity].
  apply ltb_true in H. pose proof (SFcompare_lt_antisym _ _ H). congruence.
Qed.

Lemma leb_ltb_trans (x y z : float) :
  (x <=? y) = true -> (y <? z) = true -> (x <? z) = true.
Proof.
  rewrite leb_true, !ltb_true. intros (r & Hxy & Hr) Hyz.
  exact (SFcompare_le_lt_trans _ _ _ r Hxy Hr Hyz).
Qed.

Lemma ltb_leb (x y : float) : (x <? y) = true -> (x <=? y) = true.
Proof.
  rewrite ltb_true, leb_true. intros H. exists Lt. split; [exact H|discriminate].
Qed.

(* ------------------------------------------------------------------ *)
(** ** The click handler in double arithmetic *)

Lemma closer_self clicked b : closer clicked b b = b.
Proof. unfold closer. destruct (js_lt _ _); reflexivity. Qed.

Lemma closer_cases clicked closest location :
  (closer clicked closest location = location
   /\ (distanceTo clicked location <? distanceTo clicked closest) = true)
  \/ (closer clicked closest location = closest
      /\ (distanceTo clicked location <? distanceTo clicked closest) = false).
Proof.
  unfold closer, js_lt.
  destruct (distanceTo clicked location <? distanceTo clicked closest);
    [left|right]; split; reflexivity.
Qed.

(** The fold, seen from a list split around the current best: nothing
    before it has a computed distance at or below its own, nothing after
    it a computed distance below its own. *)
Lemma reduce_closer_split clicked rest :
  forall before b after,
    (forall x, In x before ->
       (distanceTo clicked x <=? distanceTo clicked b) = false) ->
    (forall x, In x after ->
       (distanceTo clicked x <? distanceTo clicked b) = false) ->
    exists before' after',
      (before ++ b :: after ++ rest
       = before' ++ reduce (closer clicked) rest b :: after')%list
      /\ (forall x, In x before' ->
            (distanceTo clicked x
             <=? distanceTo clicked (reduce (closer clicked) rest b)) = false)
      /\ (forall x, In x after' ->
            (distanceTo clicked x
             <? distanceTo clicked (reduce (closer clicked) rest b)) = false).
Proof.
  unfold reduce.
  induction rest as [|x rest IH]; intros before b after Hbefore Hafter.
  - exists before, after. rewrite app_nil_r. auto.
  - cbn [fold_left].
    destruct (closer_cases clicked b x) as [[Hc Hlt]|[Hc Hlt]]; rewrite Hc.
    + destruct (IH (before ++ b :: after)%list x [])
        as (before' & after' & Heq & H1 & H2).
      * intros y Hy.
        destruct (distanceTo clicked y <=? distanceTo clicked x) eqn:Hyx;
          [exfalso|reflexivity].
        pose proof (leb_ltb_trans _ _ _ Hyx Hlt) as Hyb.
        apply in_app_or in Hy. destruct Hy as [Hy|[<-|Hy]].
        -- pose proof (Hbefore y Hy) as Hf.
           rewrite (ltb_leb _ _ Hyb) in Hf. discriminate.
        -- rewrite ltb_irrefl in Hyb. discriminate.
        -- pose proof (Hafter y Hy) as Hf. rewrite Hyb in Hf. discriminate.
      * intros y [].
      * exists before', after'. split; [|split; assumption].
        rewrite <- Heq. rewrite <- app_assoc. reflexivity.
    + destruct (IH before b (after ++ [x])%list)
        as (before' & after' & Heq & H1 & H2).
      * exact Hbefore.
      * intros y Hy. apply in_app_or in Hy. destruct Hy as [Hy|[<-|[]]].
        -- apply Hafter, Hy.
        -- exact Hlt.
      * exists before', after'. split; [|split; assumption].
        rewrite <- Heq. rewrite <- app_assoc. reflexivity.
Qed.

Lemma nearestLocation_split clicked first rest :
  exists before nearest after,
    (first :: rest = before ++ nearest :: after)%list
    /\ nearestLocation clicked (first :: rest) = Some nearest
    /\ (forall x, In x before ->
          (distanceTo clicked x <=? distanceTo clicked nearest) = false)
    /\ (forall x, In x after ->
          (distanceTo clicked x <? distanceTo clicked nearest) = false).
Proof.
  destruct (reduce_closer_split clicked rest [] first [])
    as (before & after & Heq & H1 & H2); try (intros x []).
  exists before, (reduce (closer clicked) rest first), after.
  split; [exact Heq|]. split; [|split; assumption].
  unfold nearestLocation. cbn [nth_error]. f_equal.
  unfold reduce. cbn [fold_left]. rewrite closer_self. reflexivity.
Qed.

(** C10, as stated, fails in the arithmetic of the code: with the list
    [hairEast; dueNorth] and a click due south of dueNorth, both
    computed distances are the same double, the strict comparison keeps
    hairEast, and dueNorth is strictly nearer. *)
Lemma nearest_exact_counterexample :
  ~ (forall clicked st,
       touristLocations st <> [] ->
       exists nearest,
         selectedLocation (handleMapClick clicked st) = Some nearest
         /\ In nearest (touristLocations st)
         /\ forall loc, In loc (touristLocations st) ->
              (exact_sqdist (position nearest) clicked
               <= exact_sqdist (position loc) clicked)%Q).
Proof.
  intros H.
  destruct (H hairClick hairState) as (nearest & Hsel & _ & Hmin);
    [discriminate|].
  assert (Hrun : selectedLocation (handleMapClick hairClick hairState)
                 = Some hairEast) by (vm_compute; reflexivity).
  rewrite Hrun in Hsel. injection Hsel as <-.
  specialize (Hmin dueNorth (or_intror (or_introl eq_refl))).
  apply Qle_bool_iff in Hmin. vm_compute in Hmin. discriminate.
Qed.

(** C10, amended: on a non-empty list handleMapClick selects a location
    of the list such that no location of the list has a smaller
    distance to the click as the code computes it, in doubles; on the
    empty list it selects nothing and leaves the state as it was. *)
Theorem handleMapClick_selects_computed_nearest clicked st :
  (touristLocations st = [] -> handleMapClick clicked st = st) /\
  (touristLocations st <> [] ->
   exists nearest,
     handleMapClick clicked st = setSelectedLocation (Some nearest) st
     /\ In nearest (touristLocations st)
     /\ forall loc, In loc (touristLocations st) ->
          js_lt (distanceTo clicked loc) (distanceTo clicked nearest) = false).
Proof.
  unfold handleMapClick.
  destruct (touristLocations st) as [|first rest] eqn:Hlocs.
  - split; [reflexivity|]. intros H. contradiction.
  - split; [discriminate|]. intros _.
    destruct (nearestLocation_split clicked first rest)
      as (before & nearest & after & Heq & -> & Hbefore & Hafter).
    exists nearest. split; [reflexivity|]. rewrite Heq. split.
    + apply in_or_app. right. left. reflexivity.
    + intros loc Hin. unfold js_lt.
      apply in_app_or in Hin. destruct Hin as [Hin|[<-|Hin]].
      * destruct (distanceTo clicked loc <? distanceTo clicked nearest) eqn:Hlt;
          [|reflexivity].
        pose proof (Hbefore loc Hin) as Hc.
        rewrite (ltb_leb _ _ Hlt) in Hc. discriminate.
      * apply ltb_irrefl.
      * apply Hafter, Hin.
Qed.

Lemma handleMapClick_selects_computed_nearest_witness :
  touristLocations hairState <> [] /\
  exists nearest,
    handleMapClick hairClick hairState
    = setSelectedLocation (Some nearest) hairState
    /\ In nearest (touristLocations hairState)
    /\ forall loc, In loc (touristLocations hairState) ->
         js_lt (distanceTo hairClick loc) (distanceTo hairClick nearest) = false.
Proof.
  assert (Hne : touristLocations hairState <> []) by discriminate.
  split; [exact Hne|].
  exact (proj2 (handleMapClick_selects_computed_nearest hairClick hairState) Hne).
Defined.

(** X12: among the locations whose computed distance is smallest the
    click handler selects the one that comes first in the list: no
    location before the selected one has a computed distance at or
    below that of the selected one, and no location after it has a
    computed distance below it. *)
Theorem handleMapClick_first_computed_nearest clicked st :
  touristLocations st <> [] ->
  exists before nearest after,
    (touristLocations st = before ++ nearest :: after)%list
    /\ selectedLocation (handleMapClick clicked st) = Some nearest
    /\ (forall loc, In loc before ->
          (distanceTo clicked loc <=? distanceTo clicked nearest) = false)
    /\ (forall loc, In loc after ->
          (distanceTo clicked loc <? distanceTo clicked nearest) = false).
Proof.
  intros Hne. unfold handleMapClick.
  destruct (touristLocations st) as [|first rest]; [contradiction|].
  destruct (nearestLocation_split clicked first rest)
    as (before & nearest & after & Heq & -> & Hbefore & Hafter).
  exists before, nearest, after.
  split; [exact Heq|]. split; [reflexivity|]. split; assumption.
Qed.

Lemma handleMapClick_first_computed_nearest_witness :
  touristLocations hairState <> [] /\
  exists before nearest after,
    (touristLocations hairState = before ++ nearest :: after)%list
    /\ selectedLocation (handleMapClick hairClick hairState) = Some nearest.
Proof.
  assert (Hne : touristLocations hairState <> []) by discriminate.
  split; [exact Hne|].
  destruct (handleMapClick_first_computed_nearest hairClick hairState Hne)
    as (before & nearest & after & Heq & Hsel & _).
  exists before, nearest, after. split; assumption.
Defined.

(* ------------------------------------------------------------------ *)
(** ** The totals of the fallback path in double arithmetic *)

Lemma In_Z_range lo n z :
  (lo <= z < lo + Z.of_nat n)%Z -> In z (Z_range lo n).
Proof.
  intros H. unfold Z_range. apply in_map_iff.
  exists (Z.to_nat (z - lo)). split; [lia|]. apply in_seq. lia.
Qed.

(** Sums of small whole numbers are exact. *)
Lemma add_whole (a b : Z) :
  (0 <= a < 300)%Z -> (0 <= b < 60)%Z -> of_Z a + of_Z b = of_Z (a + b).
Proof.
  intros Ha Hb.
  assert (Hall : forallb (fun a => forallb (fun b =>
            PrimFloat.Leibniz.eqb (of_Z a + of_Z b) (of_Z (a + b)))
            (Z_range 0 60)) (Z_range 0 300) = true)
    by (vm_compute; reflexivity).
  rewrite forallb_forall in Hall.
  specialize (Hall a (In_Z_range 0 300 a ltac:(lia))).
  rewrite forallb_forall in Hall.
  specialize (Hall b (In_Z_range 0 60 b ltac:(lia))).
  apply FloatAxioms.Leibniz.eqb_spec. exact Hall.
Qed.

Lemma to_Q_of_Z (z : Z) :
  (0 <= z < 360)%Z -> (to_Q (of_Z z) == inject_Z z)%Q.
Proof.
  intros Hz.
  assert (Hall : forallb (fun z => Qeq_bool (to_Q (of_Z z)) (inject_Z z))
                   (Z_range 0 360) = true)
    by (vm_compute; reflexivity).
  rewrite forallb_forall in Hall.
  apply Qeq_bool_iff. apply Hall. apply In_Z_range. lia.
Qed.

(** A quotient of a small whole number by 3 or 5 is within 2^-50 of the
    exact quotient, and equal to it exactly when the division comes out
    even. *)
Lemma div_whole (s n : Z) :
  (n = 3 \/ n = 5)%Z -> (18 <= s <= 45)%Z ->
  (Qabs (to_Q (of_Z s / of_Z n)%float - inject_Z s / inject_Z n)
   <= Qmake 1 (2 ^ 50))%Q
  /\ ((to_Q (of_Z s / of_Z n)%float == inject_Z s / inject_Z n)%Q
      <-> (s mod n = 0)%Z).
Proof.
  intros Hn Hs.
  assert (Hall : forallb (fun n => forallb (fun s =>
            Qle_bool (Qabs (to_Q (of_Z s / of_Z n)%float
                            - inject_Z s / inject_Z n))
                     (Qmake 1 (2 ^ 50))
            && Bool.eqb
                 (Qeq_bool (to_Q (of_Z s / of_Z n)%float)
                           (inject_Z s / inject_Z n))
                 (s mod n =? 0)%Z)
            (Z_range 18 28)) [3; 5]%Z = true)
    by (vm_compute; reflexivity).
  rewrite forallb_forall in Hall.
  assert (Hin : In n [3; 5]%Z) by (destruct Hn as [-> | ->]; cbn; auto).
  specialize (Hall n Hin). rewrite forallb_forall in Hall.
  specialize (Hall s (In_Z_range 18 28 s ltac:(lia))).
  apply andb_true_iff in Hall. destruct Hall as [Hle Heq].
  apply Bool.eqb_prop in Heq.
  split.
  - apply Qle_bool_iff. exact Hle.
  - rewrite <- Qeq_bool_iff, Heq. apply Z.eqb_eq.
Qed.

(** Folding [+] over whole fields stays whole and exact. *)
Lemma reduce_whole (f : TouristLocation -> number) (lo hi : Z) locs :
  (0 <= lo)%Z -> (hi < 60)%Z ->
  (forall loc, In loc locs -> whole lo hi (f loc)) ->
  forall a,
    (0 <= a)%Z -> (a + hi * Z.of_nat (List.length locs) < 300)%Z ->
    exists t,
      reduce (fun sum loc => sum + f loc) locs (of_Z a) = of_Z t
      /\ (a + lo * Z.of_nat (List.length locs) <= t
          <= a + hi * Z.of_nat (List.length locs))%Z
      /\ (inject_Z t
          == inject_Z a + sum_Q (map (fun loc => to_Q (f loc)) locs))%Q.
Proof.
  intros Hlo Hhi. unfold reduce.
  induction locs as [|x rest IH]; intros Hall a Ha Hbound.
  - exists a. cbn. split; [reflexivity|]. split; [lia|]. ring.
  - destruct (Hall x (or_introl eq_refl)) as (c & Hc & Hfx).
    cbn [List.length] in Hbound. rewrite Nat2Z.inj_succ in Hbound.
    rewrite Z.mul_succ_r in Hbound.
    assert (Hpos : (0 <= hi * Z.of_nat (List.length rest))%Z)
      by (apply Z.mul_nonneg_nonneg; lia).
    cbn [fold_left]. rewrite Hfx, add_whole by lia.
    destruct (IH (fun loc H => Hall loc (or_intror H)) (a + c)%Z)
      as (t & Ht & Hrange & HQ); [lia|lia|].
    exists t. split; [exact Ht|]. split.
    + cbn [List.length]. rewrite Nat2Z.inj_succ, !Z.mul_succ_r. lia.
    + cbn [map sum_Q fold_right].
      change (fold_right Qplus 0%Q (map (fun loc => to_Q (f loc)) rest))
        with (sum_Q (map (fun loc => to_Q (f loc)) rest)).
      rewrite HQ, Hfx, to_Q_of_Z by lia. rewrite inject_Z_plus. ring.
Qed.

(** The synthesizer's batch has one location per anchor. *)
Lemma Array_map_mockLocation_length city l :
  forall index w locs w',
    Array_map (mockLocation city) l index w = (Normal locs, w') ->
    List.length locs = List.length l.
Proof.
  induction l as [|pos rest IH]; intros index w locs w' H.
  - cbn in H. inversion H. reflexivity.
  - cbn [Array_map] in H. unfold bind at 1 in H.
    destruct (mockLocation city pos index w) as [[loc| |e] w1];
      try discriminate.
    unfold bind at 1 in H.
    destruct (Array_map (mockLocation city) rest (S index) w1)
      as [[locs1| |e] w2] eqn:Hrest; try discriminate.
    inversion H; subst. cbn [List.length]. f_equal.
    exact (IH _ _ _ _ Hrest).
Qed.

Lemma positions_table_cases city :
  (exists l, or_else (get basePositions city) (get basePositions "Delhi") = array l
             /\ (List.length l = 3 \/ List.length l = 5)%nat)
  \/ or_else (get basePositions city) (get basePositions "Delhi")
     = inherited city.
Proof.
  unfold get. cbn [own_property basePositions].
  destruct (String.eqb "Delhi" city);
    [left; exists delhiAnchors; split; [reflexivity|right; reflexivity]|].
  destruct (String.eqb "Agra" city);
    [left; exists agraAnchors; split; [reflexivity|left; reflexivity]|].
  destruct (String.eqb "Jaipur" city);
    [left; exists jaipurAnchors; split; [reflexivity|left; reflexivity]|].
  destruct (is_inherited city).
  - right. reflexivity.
  - left. exists delhiAnchors. split; [reflexivity|right; reflexivity].
Qed.

Lemma generateMockTouristData_length city w locs w' :
  generateMockTouristData city w = (Normal locs, w') ->
  (List.length locs = 3 \/ List.length locs = 5)%nat.
Proof.
  unfold generateMockTouristData.
  destruct (positions_table_cases city) as [(l & -> & Hlen)| ->].
  - intros H. apply Array_map_mockLocation_length in H. rewrite H. exact Hlen.
  - intros H. discriminate H.
Qed.

Ltac run_fetch :=
  unfold fetchTouristData, call, try_finally, try_catch, bind, lift, fetch, json,
    setLoading, setError, setTouristLocations, setSafetyZones,
    setTotalTourists, setAverageSafetyScore, modify, console_warn,
    console_error, ret, throw, return_;
  cbn [ui world ok body fst snd].

Lemma fetchTouristData_fallback_run upstream city s locs w' :
  falls_back upstream ->
  generateMockTouristData city (world s) = (Normal locs, w') ->
  fetchTouristData upstream city s
  = (Normal tt, {| ui := mockState city locs (ui s); world := w' |}).
Proof.
  intros Hfb Hgen.
  destruct upstream as [e|[isok b]]; cbn in Hfb.
  - run_fetch. rewrite Hgen. reflexivity.
  - destruct Hfb as [Hok|[e Hb]]; cbn in *; subst.
    + run_fetch. rewrite Hgen. reflexivity.
    + destruct isok; run_fetch; rewrite Hgen; reflexivity.
Qed.

Lemma sevensWorld_unit : unit_draws sevensWorld.
Proof.
  intros n. unfold sevensWorld. cbn [random].
  destruct ((n =? 9) || (n =? 15))%nat; split; vm_compute; reflexivity.
Qed.

Lemma sevensWorld_run :
  generateMockTouristData "Agra" sevensWorld
  = (Normal sevensBatch, snd (generateMockTouristData "Agra" sevensWorld)).
Proof.
  assert (Hfst : fst (generateMockTouristData "Agra" sevensWorld)
                 = Normal sevensBatch) by (vm_compute; reflexivity).
  rewrite <- Hfst. apply surjective_pairing.
Qed.

Lemma sevensBatch_whole :
  forall loc, In loc sevensBatch ->
    whole 10 59 (count loc) /\ whole 6 9 (safetyScore loc).
Proof.
  intros loc [<- | [<- | [<- | []]]]; cbn [count safetyScore]; split.
  - exists 10%Z. split; [lia|vm_compute; reflexivity].
  - exists 6%Z. split; [lia|vm_compute; reflexivity].
  - exists 10%Z. split; [lia|vm_compute; reflexivity].
  - exists 7%Z. split; [lia|vm_compute; reflexivity].
  - exists 10%Z. split; [lia|vm_compute; reflexivity].
  - exists 7%Z. split; [lia|vm_compute; reflexivity].
Qed.

(** C4, as stated, fails in the arithmetic of the code: a rejected fetch
    for Agra with draws that give the scores 6, 7 and 7 ends with the
    average 6.666666666666667, a double, which is not 20/3. *)
Lemma fallback_average_exact_counterexample :
  ~ (forall upstream city s,
       falls_back upstream ->
       unit_draws (world s) ->
       error (ui (snd (fetchTouristData upstream city s))) = None ->
       (to_Q (totalTourists (ui (snd (fetchTouristData upstream city s))))
        == exact_total
             (touristLocations (ui (snd (fetchTouristData upstream city s)))))%Q
       /\ (to_Q (averageSafetyScore
                   (ui (snd (fetchTouristData upstream city s))))
           == exact_mean
                (touristLocations
                   (ui (snd (fetchTouristData upstream city s)))))%Q).
Proof.
  intros H.
  pose (s := {| ui := initialState; world := sevensWorld |}).
  pose (upstream := FetchRejects (NetworkError "Failed to fetch")).
  assert (Hrun : fetchTouristData upstream "Agra" s
                 = (Normal tt,
                    {| ui := mockState "Agra" sevensBatch initialState;
                       world := snd (generateMockTouristData "Agra" sevensWorld) |}))
    by (apply (fetchTouristData_fallback_run upstream "Agra" s _ _ I);
        exact sevensWorld_run).
  specialize (H upstream "Agra" s I sevensWorld_unit).
  rewrite Hrun in H. cbn [snd ui] in H.
  destruct (H eq_refl) as [_ Havg].
  assert (Hbool : Qeq_bool
            (to_Q (averageSafetyScore (mockState "Agra" sevensBatch initialState)))
            (exact_mean
               (touristLocations (mockState "Agra" sevensBatch initialState)))
          = false)
    by (vm_compute; reflexivity).
  apply Qeq_bool_iff in Havg. congruence.
Qed.

(** C4, amended: on the mock-data fallback path, for a batch whose
    counts are whole numbers from 10 to 59 and whose scores are whole
    numbers from 6 to 9 -- the ranges of the synthesized values -- the
    reported total is exactly the sum of the counts, and the reported
    average is the double quotient of the sum of the scores by the
    number of locations: within 2^-50 of the arithmetic mean, and equal
    to it exactly when the mean is a whole number. *)
Theorem fallback_totals_exact_sum_rounded_mean upstream city s locs w' :
  falls_back upstream ->
  generateMockTouristData city (world s) = (Normal locs, w') ->
  (forall loc, In loc locs ->
     whole 10 59 (count loc) /\ whole 6 9 (safetyScore loc)) ->
  exists s',
    fetchTouristData upstream city s = (Normal tt, s')
    /\ touristLocations (ui s') = locs
    /\ (to_Q (totalTourists (ui s')) == exact_total locs)%Q
    /\ (Qabs (to_Q (averageSafetyScore (ui s')) - exact_mean locs)
        <= Qmake 1 (2 ^ 50))%Q
    /\ ((to_Q (averageSafetyScore (ui s')) == exact_mean locs)%Q
        <-> exists k : Z, (exact_mean locs == inject_Z k)%Q).
Proof.
  intros Hfb Hgen Hall.
  eexists. split; [apply fetchTouristData_fallback_run; eassumption|].
  cbn [ui mockState touristLocations totalTourists averageSafetyScore].
  split; [reflexivity|].
  pose proof (generateMockTouristData_length _ _ _ _ Hgen) as Hlen.
  assert (Hzero : 0 = of_Z 0) by (vm_compute; reflexivity).
  rewrite Hzero.
  assert (Hn : (Z.of_nat (List.length locs) = 3
                \/ Z.of_nat (List.length locs) = 5)%Z)
    by (destruct Hlen as [-> | ->]; [left|right]; reflexivity).
  destruct (reduce_whole count 10 59 locs) with (a := 0%Z)
    as (t & Ht & Htrange & HtQ); try lia.
  { intros loc Hin. apply (Hall loc Hin). }
  destruct (reduce_whole safetyScore 6 9 locs) with (a := 0%Z)
    as (sm & Hs & Hsrange & HsQ); try lia.
  { intros loc Hin. apply (Hall loc Hin). }
  rewrite Ht, Hs.
  assert (Hmean : (exact_mean locs
                   == inject_Z sm / inject_Z (Z.of_nat (List.length locs)))%Q).
  { unfold exact_mean. fold (sum_Q (map (fun loc => to_Q (safetyScore loc)) locs)).
    rewrite HsQ. change (inject_Z 0) with 0%Q.
    rewrite Qplus_0_l. reflexivity. }
  destruct (div_whole sm (Z.of_nat (List.length locs)) Hn) as [Hnear Hexact];
    [lia|].
  assert (Hnz : ~ (inject_Z (Z.of_nat (List.length locs)) == 0)%Q)
    by (destruct Hn as [-> | ->]; discriminate).
  assert (Hn0 : Z.of_nat (List.length locs) <> 0%Z) by lia.
  split; [|split].
  - transitivity (inject_Z t); [apply to_Q_of_Z; lia|].
    rewrite HtQ. change (inject_Z 0) with 0%Q. apply Qplus_0_l.
  - rewrite Hmean. exact Hnear.
  - rewrite Hmean, Hexact. split.
    + intros Hmod. exists (sm / Z.of_nat (List.length locs))%Z.
      apply (Z.div_exact sm _ Hn0) in Hmod.
      remember (sm / Z.of_nat (List.length locs))%Z as q.
      rewrite Hmean, Hmod, inject_Z_mult. field. exact Hnz.
    + intros (k & Hk). rewrite Hmean in Hk.
      assert (Hsk : (inject_Z sm
                     == inject_Z (k * Z.of_nat (List.length locs)))%Q)
        by (rewrite inject_Z_mult, <- Hk; field; exact Hnz).
      assert (Hs_eq : sm = (k * Z.of_nat (List.length locs))%Z)
        by (unfold Qeq in Hsk; cbn [Qnum Qden inject_Z] in Hsk; lia).
      rewrite Hs_eq. apply Z.mod_mul. exact Hn0.
Qed.

Lemma fallback_totals_exact_sum_rounded_mean_witness :
  falls_back (FetchRejects (NetworkError "Failed to fetch")) /\
  generateMockTouristData "Agra" sevensWorld
  = (Normal sevensBatch, snd (generateMockTouristData "Agra" sevensWorld)) /\
  exists s',
    fetchTouristData (FetchRejects (NetworkError "Failed to fetch")) "Agra"
      {| ui := initialState; world := sevensWorld |} = (Normal tt, s')
    /\ touristLocations (ui s') = sevensBatch
    /\ (to_Q (totalTourists (ui s')) == exact_total sevensBatch)%Q
    /\ (Qabs (to_Q (averageSafetyScore (ui s')) - exact_mean sevensBatch)
        <= Qmake 1 (2 ^ 50))%Q.
Proof.
  split; [exact I|]. split; [exact sevensWorld_run|].
  destruct (fallback_totals_exact_sum_rounded_mean
              (FetchRejects (NetworkError "Failed to fetch")) "Agra"
              {| ui := initialState; world := sevensWorld |}
              sevensBatch _ I sevensWorld_run sevensBatch_whole)
    as (s' & Hrun & Hlocs & Htotal & Hnear & _).
  exists s'. repeat split; assumption.
Defined.

(* ------------------------------------------------------------------ *)
(** ** Where the bands begin *)

(** The two sides of a comparison that holds are not NaN. *)
Lemma leb_defined (x y : float) :
  (x <=? y) = true -> (x <=? x) = true /\ (y <=? y) = true.
Proof.
  rewrite !leb_spec. unfold SFleb.
  destruct (Prim2SF x) as [sa|sa| |sa ma ea], (Prim2SF y) as [sb|sb| |sb mb eb];
    cbn; try discriminate; try (split; reflexivity);
    repeat match goal with s : bool |- _ => destruct s end; cbn;
    try (split; reflexivity); try discriminate;
    change (Pos.compare_cont Eq) with Pos.compare;
    intros _; rewrite ?Z.compare_refl, ?Pos.compare_refl; cbn;
    rewrite ?Pos.compare_refl; split; reflexivity.
Qed.

(** Two doubles that are not NaN compare one way or the other. *)
Lemma not_leb_ltb (x y : float) :
  (x <=? x) = true -> (y <=? y) = true ->
  (x <=? y) = false -> (y <? x) = true.
Proof.
  rewrite !leb_spec, ltb_spec. unfold SFleb, SFltb.
  destruct (Prim2SF x) as [sa|sa| |sa ma ea], (Prim2SF y) as [sb|sb| |sb mb eb];
    cbn; try discriminate; try reflexivity;
    repeat match goal with s : bool |- _ => destruct s end; cbn;
    try reflexivity; try discriminate;
    change (Pos.compare_cont Eq) with Pos.compare;
    intros _ _; compare_cases; cbn; subst;
    rewrite ?Pos.compare_refl; cbn;
    try reflexivity; try discriminate; try lia;
    compare_cases; cbn; try reflexivity; try discriminate; try lia.
Qed.

Lemma ltb_not_leb (x y : float) : (x <? y) = true -> (y <=? x) = false.
Proof.
  intros H. destruct (y <=? x) eqn:Hle; [|reflexivity].
  pose proof (leb_ltb_trans _ _ _ Hle H) as Hyy.
  rewrite ltb_irrefl in Hyy. discriminate.
Qed.

Lemma leb_not_ltb (x y : float) : (x <=? y) = true -> (y <? x) = false.
Proof.
  intros H. destruct (y <? x) eqn:Hlt; [|reflexivity].
  rewrite (ltb_not_leb _ _ Hlt) in H. discriminate.
Qed.

(** A score that passes a threshold passes every lower one. *)
Lemma leb_below (lo hi score : float) :
  (lo <? hi) = true -> (hi <=? score) = true -> (lo <=? score) = true.
Proof.
  intros Hlt Hhi.
  destruct (lo <=? score) eqn:Hlo; [reflexivity|exfalso].
  pose proof (proj1 (leb_defined _ _ (ltb_leb _ _ Hlt))) as Hlo_def.
  pose proof (proj2 (leb_defined _ _ Hhi)) as Hscore_def.
  pose proof (not_leb_ltb _ _ Hlo_def Hscore_def Hlo) as Hbelow.
  pose proof (leb_ltb_trans _ _ _ Hhi Hbelow) as Hhi_lo.
  pose proof (ltb_not_leb _ _ Hlt) as Hno.
  rewrite (ltb_leb _ _ Hhi_lo) in Hno. discriminate.
Qed.

(** A score that fails a threshold but passes some other one lies below
    the first. *)
Lemma ltb_above (lo hi score : float) :
  (hi <=? hi) = true ->
  (lo <=? score) = true -> (hi <=? score) = false -> (score <? hi) = true.
Proof.
  intros Hhi_def Hlo Hhi.
  exact (not_leb_ltb _ _ Hhi_def (proj2 (leb_defined _ _ Hlo)) Hhi).
Qed.

(** The outcomes of the three tests [score >= 8], [score >= 6] and
    [score >= 4]: four cases, the last one taking in NaN. *)
Lemma threshold_tests (score : float) :
  ((8 <=? score) = true /\ (6 <=? score) = true /\ (4 <=? score) = true
   /\ (score <? 8) = false /\ (score <? 6) = false /\ (score <? 4) = false)
  \/ ((8 <=? score) = false /\ (6 <=? score) = true /\ (4 <=? score) = true
      /\ (score <? 8) = true /\ (score <? 6) = false /\ (score <? 4) = false)
  \/ ((8 <=? score) = false /\ (6 <=? score) = false /\ (4 <=? score) = true
      /\ (score <? 6) = true /\ (score <? 4) = false)
  \/ ((8 <=? score) = false /\ (6 <=? score) = false /\ (4 <=? score) = false
      /\ ((score <? 4) = true \/ isNaN score = true)).
Proof.
  assert (H68 : (6 <? 8) = true) by reflexivity.
  assert (H46 : (4 <? 6) = true) by reflexivity.
  assert (H8 : (8 <=? 8) = true) by reflexivity.
  assert (H6 : (6 <=? 6) = true) by reflexivity.
  assert (H4 : (4 <=? 4) = true) by reflexivity.
  destruct (8 <=? score) eqn:T8.
  - left.
    pose proof (leb_below 6 8 score H68 T8) as T6.
    pose proof (leb_below 4 6 score H46 T6) as T4.
    repeat split; auto using leb_not_ltb.
  - right. destruct (6 <=? score) eqn:T6.
    + left.
      pose proof (leb_below 4 6 score H46 T6) as T4.
      repeat split; auto using leb_not_ltb.
      exact (ltb_above 6 8 score H8 T6 T8).
    + right. destruct (4 <=? score) eqn:T4.
      * left. repeat split; auto using leb_not_ltb.
        exact (ltb_above 4 6 score H6 T4 T6).
      * right. repeat split.
        unfold isNaN. destruct (score <=? score) eqn:Hdef.
        -- left. exact (not_leb_ltb 4 score H4 Hdef T4).
        -- right. reflexivity.
Qed.

(** X15: each band includes its lower threshold, in the comparisons of
    doubles: getSafetyLevel and getSafetyColor give 'Safe' and '#10b981'
    exactly for the scores from 8 on, 'Moderate' and '#fbbf24' exactly
    for 6 <= score < 8, 'Caution' and '#f97316' exactly for
    4 <= score < 6, and 'High Risk' and '#ef4444' exactly for the
    scores that fail score >= 4: those below 4 and NaN. *)
Theorem safety_bands_by_threshold (score : float) :
  (getSafetyLevel score = "Safe" <-> (8 <=? score) = true)
  /\ (getSafetyLevel score = "Moderate"
      <-> (6 <=? score) = true /\ (score <? 8) = true)
  /\ (getSafetyLevel score = "Caution"
      <-> (4 <=? score) = true /\ (score <? 6) = true)
  /\ (getSafetyLevel score = "High Risk"
      <-> (score <? 4) = true \/ isNaN score = true)
  /\ (getSafetyColor score = "#10b981" <-> (8 <=? score) = true)
  /\ (getSafetyColor score = "#fbbf24"
      <-> (6 <=? score) = true /\ (score <? 8) = true)
  /\ (getSafetyColor score = "#f97316"
      <-> (4 <=? score) = true /\ (score <? 6) = true)
  /\ (getSafetyColor score = "#ef4444"
      <-> (score <? 4) = true \/ isNaN score = true).
Proof.
  assert (Hnan : isNaN score = true -> (4 <=? score) = true -> False).
  { unfold isNaN. intros Hn H4.
    rewrite (proj2 (leb_defined _ _ H4)) in Hn. discriminate. }
  unfold getSafetyLevel, getSafetyColor, js_ge.
  destruct (threshold_tests score)
    as [(T8 & T6 & T4 & L8 & L6 & L4)
       |[(T8 & T6 & T4 & L8 & L6 & L4)
        |[(T8 & T6 & T4 & L6 & L4)
         |(T8 & T6 & T4 & L4)]]];
    rewrite T8, ?T6, ?T4, ?L8, ?L6, ?L4;
    repeat split; intros; try discriminate; try reflexivity;
    repeat match goal with
      | H : _ /\ _ |- _ => destruct H
      | H : _ \/ _ |- _ => destruct H
      end;
    try discriminate; try congruence; auto;
    try (exfalso; apply Hnan; assumption).
Qed.

End IEEE_facts.
